(** * ActionUnitManager: subscription gate, subscription lifecycle, user deletion

    A shallow embedding of the parts of the Django backend that carry
    policy:

    - [actionunit/models.py]: [CustomUser] (with its [delete] guard, its
      [save] and its [get_default_password]) and [Subscription] (with its
      declared choices);
    - [actionunit/middleware.py]: [SubscriptionMiddleware.process_view];
    - [actionunit/serializers.py]: [SubscriptionSerializer] and
      [SubscriptionCreateSerializer];
    - [actionunit/views.py]: [subscription_status], [create_subscription],
      [initiate_payment] and [verify_payment].

    Conventions.  A [DateField] value is the proleptic ordinal of the date
    (an integer number of days), so [d + timedelta(days=n)] is [d + n] and
    date comparison is integer comparison; [timezone.now().date()] is the
    argument [today] (the current date is far away from [date.max], so the
    additions of at most 365 days made here do not overflow).  A
    [CharField] is a [string]; the database does not enforce [choices], so
    a status or plan is any string.  Columns that play no part in the
    policy (names, e-mail, phone, passwords, the auto-generated primary key
    and the timestamps of a subscription) are left out of the rows. *)

From stdpp Require Import gmap strings list fin_maps pretty.

Open Scope string_scope.
Open Scope Z_scope.

(** ** Python values shared by the modules *)

(** [x in [a, b, ...]] on strings. *)
Definition str_in (x : string) (l : list string) : bool :=
  existsb (String.eqb x) l.

(** [s.startswith(p)] *)
Definition startswith (s p : string) : bool := String.prefix p s.

(** Exceptions that can leave the modelled functions. *)
Inductive exn :=
| AttributeError
| ValidationError (msg : string)
| IntegrityError.

(** The outcome of a call: a returned value or a raised exception. *)
Inductive result (A : Type) :=
| Return (a : A)
| Raise (e : exn).
Arguments Return {A} a.
Arguments Raise {A} e.

(** A Python value stored in a dict: an [int], a [str] or a [date]. *)
Inductive value :=
| VInt (z : Z)
| VStr (s : string)
| VDate (d : Z).

(** A dict with string keys, in insertion order. *)
Definition dict := list (string * value).

(** [d.get(k)] *)
Fixpoint dict_get (d : dict) (k : string) : option value :=
  match d with
  | [] => None
  | (k', v) :: d' => if String.eqb k' k then Some v else dict_get d' k
  end.

(** [''.join(filter(f, s))]: the characters of [s] that satisfy [f], in
    order. *)
Fixpoint str_filter (f : Ascii.ascii -> bool) (s : string) : string :=
  match s with
  | EmptyString => EmptyString
  | String a s' => if f a then String a (str_filter f s') else str_filter f s'
  end.

(** [s[n:]] for [0 <= n] (everything when [n = 0], nothing past the end). *)
Fixpoint str_drop (n : nat) (s : string) : string :=
  match n, s with
  | O, _ => s
  | S n', String _ s' => str_drop n' s'
  | S _, EmptyString => EmptyString
  end.

(** [s[-n:]] for [0 < n]: the last [n] characters, the whole of [s] when
    it is shorter. *)
Definition str_last (n : nat) (s : string) : string :=
  str_drop (String.length s - n) s.

(** ** models.py *)

Module Models.

(** Primary key of a [Church] row. *)
Definition church_id := Z.

Definition ROLE_CHOICES : list string :=
  ["superintendent"; "teacher"; "member"; "system_admin"].

(** A row of table [users].  [church] is the nullable foreign key. *)
Record CustomUser := {
  id : Z;
  church : option church_id;
  role : string;
  is_active : bool;
  is_officer : bool
}.

Definition PLAN_CHOICES : list string :=
  ["free_trial"; "monthly"; "quarterly"; "annual"].

Definition STATUS_CHOICES : list string :=
  ["trialing"; "active"; "past_due"; "canceled"; "unpaid"].

(** A row of table [subscriptions], without its [church] column: the
    [OneToOneField] is NOT NULL and UNIQUE, so the table is a finite map
    from the church to the rest of the row. *)
Record Subscription := {
  plan : string;
  status : string;
  trial_end_date : Z;
  current_period_end : Z;
  grace_period_end : option Z
}.

(** The database: the two tables the policy reads and writes. *)
Record DB := {
  users : list CustomUser;
  subscriptions : gmap church_id Subscription
}.

Definition set_users (db : DB) (us : list CustomUser) : DB :=
  {| users := us; subscriptions := subscriptions db |}.

Definition set_subscriptions (db : DB) (ss : gmap church_id Subscription) : DB :=
  {| users := users db; subscriptions := ss |}.

(** [CustomUser.objects.filter(church=c, role=r, is_active=a)] as a
    predicate on rows ([church=None] is SQL's IS NULL). *)
Definition user_matches (c : option church_id) (r : string) (a : bool)
    (u : CustomUser) : bool :=
  bool_decide (church u = c) && String.eqb (role u) r && Bool.eqb (is_active u) a.

(** [qs.exclude(id=i)] *)
Definition exclude_id (i : Z) (qs : list CustomUser) : list CustomUser :=
  List.filter (fun u => negb (id u =? i)) qs.

(** [qs.exists()] *)
Definition qs_exists {A} (qs : list A) : bool :=
  match qs with [] => false | _ :: _ => true end.

(** [models.Model.delete]: the row with the instance's primary key goes.
    (The cascade reaches only tables outside this model.) *)
Definition super_delete (db : DB) (self : CustomUser) : DB :=
  set_users db (exclude_id (id self) (users db)).

(** [CustomUser.delete] *)
Definition CustomUser_delete (db : DB) (self : CustomUser) : result unit * DB :=
  if String.eqb (role self) "superintendent" then
    let other_superintendents :=
      exclude_id (id self)
        (List.filter (user_matches (church self) "superintendent" true) (users db)) in
    if negb (qs_exists other_superintendents) then
      (Raise (ValidationError "Cannot delete the last superintendent."), db)
    else (Return tt, super_delete db self)
  else (Return tt, super_delete db self).

(** [CustomUser.get_default_password] on the instance's [phone] (a
    nullable [CharField]; [None] and the empty string are both falsy).
    [isdigit] is Python's [str.isdigit], a builtin that is not part of the
    repository; it is a parameter here, and on ASCII text it is the test
    for '0' to '9'. *)
Definition get_default_password (isdigit : Ascii.ascii -> bool)
    (phone : option string) : string :=
  match phone with
  | Some (String a p) =>
      let digits := str_filter isdigit (String a p) in
      str_last 6 digits
  | Some EmptyString | None => "123456"
  end.

(** [Subscription.objects.get(church=c)]: the row with its [church]
    column, [None] for [DoesNotExist].  A null church matches no row, the
    column being NOT NULL. *)
Definition Subscription_objects_get (db : DB) (c : option church_id)
    : option (church_id * Subscription) :=
  match c with
  | Some c =>
      match subscriptions db !! c with
      | Some subscription => Some (c, subscription)
      | None => None
      end
  | None => None
  end.

(** [Subscription.objects.create] on the keyword arguments [kwargs]:
    the instance takes them and the model's defaults ([plan='free_trial'],
    [status='trialing'], no grace period); the INSERT fails with
    [IntegrityError] when a NOT NULL column ([church], the two dates) is
    left unset or when the church already has its row (UNIQUE). *)
Definition Subscription_objects_create (db : DB) (kwargs : dict)
    : result (church_id * Subscription) * DB :=
  match dict_get kwargs "church", dict_get kwargs "trial_end_date",
        dict_get kwargs "current_period_end" with
  | Some (VInt c), Some (VDate t), Some (VDate e) =>
      let instance :=
        {| plan := match dict_get kwargs "plan" with
                   | Some (VStr p) => p
                   | _ => "free_trial"
                   end;
           status := match dict_get kwargs "status" with
                     | Some (VStr s) => s
                     | _ => "trialing"
                     end;
           trial_end_date := t;
           current_period_end := e;
           grace_period_end := None |} in
      match subscriptions db !! c with
      | Some _ => (Raise IntegrityError, db)
      | None =>
          (Return (c, instance),
           set_subscriptions db (<[c := instance]> (subscriptions db)))
      end
  | _, _, _ => (Raise IntegrityError, db)
  end.

End Models.

(** ** models.py: saving a user *)

Module UserSave.

(** A [CustomUser] instance as [CustomUser.save] reads and writes it:
    the primary key ([None] before the first save), the fields the method
    tests, and [_state.adding]. *)
Record UserInstance := {
  pk : option Z;
  church : option Models.church_id;
  role : string;
  phone : option string;
  password : string;
  is_superuser : bool;
  adding : bool
}.

(** [ROLE_CHOICES] with its labels. *)
Definition ROLE_LABELS : list (string * string) :=
  [("superintendent", "Superintendent");
   ("teacher", "Teacher");
   ("member", "Member");
   ("system_admin", "System Administrator")].

(** [dict(choices).get(value, value)] *)
Fixpoint label_of (choices : list (string * string)) (v : string) : string :=
  match choices with
  | [] => v
  | (k, l) :: rest => if String.eqb k v then l else label_of rest v
  end.

(** [self.get_role_display()] *)
Definition get_role_display (self : UserInstance) : string :=
  label_of ROLE_LABELS (role self).

(** Truth value of a Python [str]. *)
Definition str_truthy (s : string) : bool :=
  match s with EmptyString => false | String _ _ => true end.

(** Truth value of a nullable [str]. *)
Definition opt_truthy (o : option string) : bool :=
  match o with Some s => str_truthy s | None => false end.

Definition with_role (self : UserInstance) (r : string) : UserInstance :=
  {| pk := pk self; church := church self; role := r; phone := phone self;
     password := password self; is_superuser := is_superuser self;
     adding := adding self |}.

Definition with_password (self : UserInstance) (h : string) : UserInstance :=
  {| pk := pk self; church := church self; role := role self; phone := phone self;
     password := h; is_superuser := is_superuser self; adding := adding self |}.

Section Save.

(** What lies outside the repository: the state of the database, Django's
    [AbstractUser.save] (with its [update_fields] argument; it returns the
    instance as it leaves it), the password hasher behind [set_password],
    and [str.isdigit]. *)
Variable Store : Type.
Variable super_save :
  Store -> UserInstance -> option (list string) -> result UserInstance * Store.
Variable make_password : string -> string.
Variable isdigit : Ascii.ascii -> bool.

(** [CustomUser.save].  The method calls itself after resetting the
    password, so the model takes the depth of calls allowed as [fuel];
    [None] is a depth exceeded. *)
Fixpoint CustomUser_save (fuel : nat) (st : Store) (self : UserInstance)
    (update_fields : option (list string))
    : option (result UserInstance * Store) :=
  match fuel with
  | O => None
  | S fuel' =>
      let self :=
        if is_superuser self && negb (str_truthy (role self))
        then with_role self "system_admin" else self in
      if str_in (role self) ["superintendent"; "teacher"; "member"]
         && negb (bool_decide (is_Some (church self))) then
        Some (Raise (ValidationError
                       (get_role_display self +:+ " must belong to a church.")), st)
      else if str_in (role self) ["teacher"; "member"]
              && negb (opt_truthy (phone self)) then
        Some (Raise (ValidationError
                       (get_role_display self +:+ " must have a phone number.")), st)
      else
        let is_new_teacher_member :=
          str_in (role self) ["teacher"; "member"]
          && (adding self || negb (str_truthy (password self))) in
        match super_save st self update_fields with
        | (Return self', st') =>
            if is_new_teacher_member then
              let self'' :=
                with_password self'
                  (make_password (Models.get_default_password isdigit (phone self'))) in
              CustomUser_save fuel' st' self'' (Some ["password"])
            else Some (Return self', st')
        | (Raise e, st') => Some (Raise e, st')
        end
  end.

End Save.

End UserSave.

(** ** middleware.py *)

Module Middleware.
Import Models.

(** [request.user]: Django's [AnonymousUser] has [is_authenticated =
    False] and no [church] attribute; a logged-in [CustomUser] has
    [is_authenticated = True] and the [church] attribute (possibly
    [None]). *)
Inductive User :=
| AnonymousUser
| Authenticated (u : CustomUser).

(** The request as the gate reads it.  [user = None] is a request
    object without the [user] attribute. *)
Record Request := {
  path : string;
  method : string;
  user : option User
}.

(** [JsonResponse({error, message, code}, status=...)] *)
Record JsonResponse := {
  error : string;
  message : string;
  code : string;
  status_code : Z
}.

Definition TERMINATED : JsonResponse :=
  {| error := "Subscription terminated";
     message := "Your subscription has been terminated. Please contact support.";
     code := "SUBSCRIPTION_TERMINATED";
     status_code := 402 |}.

Definition PAST_DUE : JsonResponse :=
  {| error := "Payment past due";
     message := "Your payment is past due. Please update your payment method.";
     code := "PAYMENT_PAST_DUE";
     status_code := 402 |}.

Definition EXPIRED : JsonResponse :=
  {| error := "Subscription period ended";
     message := "Your subscription period has ended. Please renew to continue.";
     code := "SUBSCRIPTION_EXPIRED";
     status_code := 402 |}.

Definition ACCESS_DENIED : JsonResponse :=
  {| error := "Subscription access denied";
     message := "Unable to verify subscription status.";
     code := "SUBSCRIPTION_ACCESS_DENIED";
     status_code := 402 |}.

(** [SubscriptionMiddleware.process_view]: [Return None] lets the view
    run, [Return (Some r)] answers [r] instead of it.  Reading
    [request.user.church.subscription] raises [AttributeError] when the
    church is [None], and [Subscription.DoesNotExist] (caught) when the
    church has no row in [subscriptions]. *)
Definition process_view (db : DB) (today : Z) (request : Request)
    : result (option JsonResponse) :=
  if startswith (path request) "/api/auth/" then Return None
  else if startswith (path request) "/static/"
          || startswith (path request) "/admin/" then Return None
  else if String.eqb (method request) "GET" then Return None
  else
    match user request with
    | None => Return None
    | Some AnonymousUser => Return None
    | Some (Authenticated u) =>
        match church u with
        | None => Raise AttributeError
        | Some c =>
            match subscriptions db !! c with
            | Some subscription =>
                if str_in (status subscription) ["canceled"; "unpaid"] then
                  Return (Some TERMINATED)
                else if String.eqb (status subscription) "past_due" then
                  Return (Some PAST_DUE)
                else if current_period_end subscription <? today then
                  Return (Some EXPIRED)
                else if str_in (status subscription) ["active"; "trialing"] then
                  Return None
                else Return (Some ACCESS_DENIED)
            | None => Return None
            end
        end
    end.

End Middleware.

(** ** serializers.py *)

Module Serializers.
Import Models.

(** [SubscriptionSerializer.get_is_active] *)
Definition get_is_active (today : Z) (obj : Subscription) : bool :=
  str_in (status obj) ["trialing"; "active"] && (today <=? current_period_end obj).

(** [SubscriptionSerializer.get_days_remaining] *)
Definition get_days_remaining (today : Z) (obj : Subscription) : Z :=
  let end_date :=
    if String.eqb (status obj) "trialing" then trial_end_date obj
    else current_period_end obj in
  if today <=? end_date then end_date - today else 0.

(** [SubscriptionSerializer(obj).data]: the stored columns and the two
    computed fields. *)
Record SubscriptionSerializer_data := {
  data_church : church_id;
  data_row : Subscription;
  data_is_active : bool;
  data_days_remaining : Z
}.

Definition SubscriptionSerializer (today : Z) (c : church_id) (obj : Subscription)
    : SubscriptionSerializer_data :=
  {| data_church := c;
     data_row := obj;
     data_is_active := get_is_active today obj;
     data_days_remaining := get_days_remaining today obj |}.

(** [SubscriptionCreateSerializer.Meta.fields] *)
Definition SubscriptionCreateSerializer_fields : list string :=
  ["plan"; "trial_end_date"; "current_period_end"].

(** The serializer reads the declared fields only: every other key of
    the input is dropped. *)
Definition validated_data (data : dict) : dict :=
  List.filter (fun kv => str_in (fst kv) SubscriptionCreateSerializer_fields) data.

(** Field validation of the model serializer: [plan] is a choice field
    that may be absent (the model has a default), the two dates are
    required. *)
Definition field_valid (k : string) (v : option value) : bool :=
  if String.eqb k "plan" then
    match v with
    | None => true
    | Some (VStr p) => str_in p PLAN_CHOICES
    | Some _ => false
    end
  else
    match v with
    | Some (VDate _) => true
    | _ => false
    end.

(** [serializer.is_valid()] *)
Definition is_valid (data : dict) : bool :=
  forallb (fun k => field_valid k (dict_get data k)) SubscriptionCreateSerializer_fields.

(** [serializer.save()]: [ModelSerializer.create] passes the validated
    data to the manager. *)
Definition save (db : DB) (data : dict) : result (church_id * Subscription) * DB :=
  Subscription_objects_create db (validated_data data).

End Serializers.

(** ** views.py *)

Module Views.
Import Models Serializers.

(** The JSON bodies the three subscription views answer with. *)
Inductive Body :=
| ErrorBody (error : string)
| SerializerErrors
| SubscriptionBody (data : SubscriptionSerializer_data)
| PaymentInitiated (success : bool) (transaction_id plan : string) (amount : Z)
    (currency message : string)
| PaymentVerified (success : bool) (message : string)
    (subscription : SubscriptionSerializer_data).

(** [Response(body, status=...)] *)
Record Response := {
  body : Body;
  status_code : Z
}.

(** [create_subscription]; [user] is [request.user], which the
    [IsAuthenticated] permission makes a logged-in [CustomUser]. *)
Definition create_subscription (db : DB) (today : Z) (user : CustomUser)
    : result Response * DB :=
  match Subscription_objects_get db (church user) with
  | Some _ =>
      (Return {| body := ErrorBody "Subscription already exists for this church";
                 status_code := 400 |}, db)
  | None =>
      let trial_end := today + 60 in
      let current_period_end := trial_end in
      match church user with
      | None => (Raise AttributeError, db)
      | Some c =>
          let subscription_data :=
            [("church", VInt c);
             ("plan", VStr "free_trial");
             ("status", VStr "trialing");
             ("trial_end_date", VDate trial_end);
             ("current_period_end", VDate current_period_end)] in
          if is_valid subscription_data then
            match save db subscription_data with
            | (Return (c', subscription), db') =>
                (Return {| body := SubscriptionBody
                                     (SubscriptionSerializer today c' subscription);
                           status_code := 201 |}, db')
            | (Raise e, db') => (Raise e, db')
            end
          else (Return {| body := SerializerErrors; status_code := 400 |}, db)
      end
  end.

(** The price table of [initiate_payment], in cedis:
    [{'monthly': 50.00, 'quarterly': 150.00, 'yearly': 500.00}.get(plan, 150.00)] *)
Definition amount_of (plan : string) : Z :=
  if String.eqb plan "monthly" then 50
  else if String.eqb plan "quarterly" then 150
  else if String.eqb plan "yearly" then 500
  else 150.

(** [initiate_payment]; [data] is [request.data] and [now_ts] is
    [int(timezone.now().timestamp())].  The database is not touched. *)
Definition initiate_payment (db : DB) (today now_ts : Z) (user : CustomUser)
    (data : gmap string string) : result Response * DB :=
  let plan := data !! "plan" in
  let phone_number := data !! "phone_number" in
  match plan with
  | Some p =>
      if negb (str_in p ["monthly"; "annual"; "quarterly"]) then
        (Return {| body := ErrorBody "Invalid plan type"; status_code := 400 |}, db)
      else
        let period_end :=
          if String.eqb p "monthly" then today + 30
          else if String.eqb p "quarterly" then today + 90
          else today + 365 in
        let transaction_id := "MTN_" +:+ pretty now_ts in
        (Return {| body := PaymentInitiated true transaction_id p (amount_of p) "GHS"
                     "Payment initiated successfully. Please check your phone to complete payment.";
                   status_code := 200 |}, db)
  | None =>
      (Return {| body := ErrorBody "Invalid plan type"; status_code := 400 |}, db)
  end.

(** [verify_payment].  Neither [transaction_id] nor anything else is
    checked with a provider.  [subscription.save()] writes the row
    back; with [plan = None] the UPDATE violates NOT NULL. *)
Definition verify_payment (db : DB) (today : Z) (user : CustomUser)
    (data : gmap string string) : result Response * DB :=
  let transaction_id := data !! "transaction_id" in
  let plan := data !! "plan" in
  match Subscription_objects_get db (church user) with
  | Some (c, subscription) =>
      let period_end :=
        if bool_decide (plan = Some "monthly") then today + 30
        else if bool_decide (plan = Some "quarterly") then today + 90
        else today + 365 in
      match plan with
      | Some p =>
          let subscription' :=
            {| plan := p;
               status := "active";
               trial_end_date := trial_end_date subscription;
               current_period_end := period_end;
               grace_period_end := grace_period_end subscription |} in
          (Return {| body := PaymentVerified true
                       "Payment verified and subscription updated"
                       (SubscriptionSerializer today c subscription');
                     status_code := 200 |},
           set_subscriptions db (<[c := subscription']> (subscriptions db)))
      | None => (Raise IntegrityError, db)
      end
  | None =>
      (Return {| body := ErrorBody "Subscription not found"; status_code := 404 |}, db)
  end.

(** [subscription_status], a GET view: it reads and writes nothing. *)
Definition subscription_status (db : DB) (today : Z) (user : CustomUser)
    : result Response * DB :=
  match Subscription_objects_get db (church user) with
  | Some (c, subscription) =>
      (Return {| body := SubscriptionBody (SubscriptionSerializer today c subscription);
                 status_code := 200 |}, db)
  | None =>
      (Return {| body := ErrorBody "No subscription found for this church";
                 status_code := 404 |}, db)
  end.

End Views.

(** * Properties *)

(** ** Strings *)

(** [p] lies under the prefix [pre]: it is [pre] followed by anything. *)
Definition under (pre p : string) : Prop := exists rest, p = pre +:+ rest.

Lemma startswith_under (s p : string) : startswith s p = true <-> under p s.
Proof.
  unfold startswith, under. revert s.
  induction p as [|a p IH]; intros s; simpl.
  - split; [intros _; by exists s | by destruct s].
  - destruct s as [|b s]; simpl.
    + split; [done | intros [rest H]; discriminate H].
    + destruct (Ascii.ascii_dec a b) as [->|Hab].
      * rewrite IH. split; intros [rest H]; exists rest;
          change (String b p +:+ rest) with (String b (p +:+ rest)) in *; congruence.
      * split; [done | intros [rest H]].
        change (String a p +:+ rest) with (String a (p +:+ rest)) in H. congruence.
Qed.

Lemma startswith_not_under (s p : string) : ~ under p s -> startswith s p = false.
Proof.
  intros H. destruct (startswith s p) eqn:E; [|done].
  by apply startswith_under in E.
Qed.

Lemma str_in_elem_of (x : string) (l : list string) : str_in x l = true <-> x ∈ l.
Proof.
  unfold str_in. rewrite existsb_exists, list_elem_of_In. split.
  - intros [y [Hy E]]. apply String.eqb_eq in E. by subst.
  - intros H. exists x. split; [done | apply String.eqb_refl].
Qed.

Lemma str_in_not_elem_of (x : string) (l : list string) : x ∉ l -> str_in x l = false.
Proof.
  intros H. destruct (str_in x l) eqn:E; [|done].
  by apply str_in_elem_of in E.
Qed.

Lemma eqb_neq_false (x y : string) : x <> y -> String.eqb x y = false.
Proof. intros H. by apply String.eqb_neq. Qed.

(** ** The subscription gate *)

Module GateProperties.
Import Models Middleware.

(** The gate answers with a 402 denial carrying the code [c]. *)
Definition denies (o : result (option JsonResponse)) (c : string) : Prop :=
  exists r, o = Return (Some r) /\ status_code r = 402 /\ code r = c.

(** The path is none of the three prefixes the gate skips. *)
Definition not_bypassed (p : string) : Prop :=
  ~ under "/api/auth/" p /\ ~ under "/static/" p /\ ~ under "/admin/" p.

(** [request] is a write by a logged-in user whose church has the
    subscription [s]: a path outside the skipped prefixes, a method
    other than GET, an authenticated user with a church, and the row [s]
    stored for that church. *)
Definition gated_write (db : DB) (request : Request) (s : Subscription) : Prop :=
  not_bypassed (path request) /\
  method request <> "GET" /\
  exists u c, user request = Some (Authenticated u) /\
              church u = Some c /\
              subscriptions db !! c = Some s.

(** On such a request the gate's answer is the chain of checks on [s]. *)
Lemma gate_on_tenant db today request s :
  gated_write db request s ->
  process_view db today request =
    if str_in (status s) ["canceled"; "unpaid"] then Return (Some TERMINATED)
    else if String.eqb (status s) "past_due" then Return (Some PAST_DUE)
    else if current_period_end s <? today then Return (Some EXPIRED)
    else if str_in (status s) ["active"; "trialing"] then Return None
    else Return (Some ACCESS_DENIED).
Proof.
  intros [(Hauth & Hstatic & Hadmin) [Hget (u & c & Hu & Hc & Hs)]].
  unfold process_view.
  rewrite (startswith_not_under _ _ Hauth), (startswith_not_under _ _ Hstatic),
    (startswith_not_under _ _ Hadmin), (eqb_neq_false _ _ Hget).
  simpl. by rewrite Hu, Hc, Hs.
Qed.

(** The two accepted statuses pass the two status denials. *)
Lemma accepted_not_blocked (st : string) :
  st ∈ ["active"; "trialing"] ->
  str_in st ["canceled"; "unpaid"] = false /\ String.eqb st "past_due" = false.
Proof.
  intros H. apply list_elem_of_In in H. simpl in H.
  destruct H as [<-|[<-|[]]]; split; reflexivity.
Qed.

Lemma not_bypassed_dec (p : string) :
  startswith p "/api/auth/" = false ->
  startswith p "/static/" = false ->
  startswith p "/admin/" = false ->
  not_bypassed p.
Proof.
  intros H1 H2 H3. repeat split; intros H; apply startswith_under in H; congruence.
Qed.

(** Sample data: church 1 with a subscription row, and a teacher of it
    posting to the class endpoint. *)
Definition teacher1 : CustomUser :=
  {| id := 7; church := Some 1; role := "teacher"; is_active := true;
     is_officer := false |}.

Definition post_classes : Request :=
  {| path := "/api/classes/"; method := "POST";
     user := Some (Authenticated teacher1) |}.

Definition sub (st : string) (period_end : Z) : Subscription :=
  {| plan := "monthly"; status := st; trial_end_date := 60;
     current_period_end := period_end; grace_period_end := None |}.

Definition db_with (s : Subscription) : DB :=
  {| users := [teacher1]; subscriptions := {[ 1 := s ]} |}.

Lemma post_classes_gated s : gated_write (db_with s) post_classes s.
Proof.
  split; [by apply not_bypassed_dec | split; [done |]].
  exists teacher1, 1. split; [done | split; [done | apply lookup_singleton_eq]].
Defined.

(** C1. On a non-GET request outside the skipped prefixes, by an
    authenticated user whose church's subscription has status 'canceled'
    or 'unpaid', the gate answers 402 with code SUBSCRIPTION_TERMINATED,
    whatever [current_period_end] is (no assumption is made on it). *)
Theorem terminated_denied db today request s :
  gated_write db request s ->
  status s ∈ ["canceled"; "unpaid"] ->
  denies (process_view db today request) "SUBSCRIPTION_TERMINATED".
Proof.
  intros Hg Hst. rewrite (gate_on_tenant _ _ _ _ Hg).
  apply str_in_elem_of in Hst. rewrite Hst.
  by exists TERMINATED.
Qed.

(** A canceled subscription whose period ends in the future (day 500,
    today being day 100) is denied as terminated. *)
Lemma terminated_denied_witness :
  denies (process_view (db_with (sub "canceled" 500)) 100 post_classes)
    "SUBSCRIPTION_TERMINATED".
Proof.
  apply (terminated_denied _ 100 post_classes (sub "canceled" 500)).
  - apply post_classes_gated.
  - simpl. apply list_elem_of_In. simpl. tauto.
Defined.

(** C2. On a non-GET, non-bypassed request by an authenticated user
    whose church's subscription has status 'past_due', the gate answers
    402 with code PAYMENT_PAST_DUE, for every [current_period_end]. *)
Theorem past_due_denied db today request s :
  gated_write db request s ->
  status s = "past_due" ->
  denies (process_view db today request) "PAYMENT_PAST_DUE".
Proof.
  intros Hg Hst. rewrite (gate_on_tenant _ _ _ _ Hg), Hst. simpl.
  by exists PAST_DUE.
Qed.

Lemma past_due_denied_witness :
  denies (process_view (db_with (sub "past_due" 500)) 100 post_classes)
    "PAYMENT_PAST_DUE".
Proof.
  apply (past_due_denied _ 100 post_classes (sub "past_due" 500)).
  - apply post_classes_gated.
  - reflexivity.
Defined.

(** C3. On a non-GET, non-bypassed request by an authenticated user
    whose church's subscription has [current_period_end] strictly before
    today, a status 'active' or 'trialing' is denied with 402 and code
    SUBSCRIPTION_EXPIRED.  The period check comes after the terminated
    and past-due checks: with the same lapsed period, 'canceled' and
    'unpaid' still answer SUBSCRIPTION_TERMINATED and 'past_due' still
    answers PAYMENT_PAST_DUE; it comes before the acceptance of
    'active' and 'trialing', which is why those are denied. *)
Theorem expired_denied db today request s :
  gated_write db request s ->
  current_period_end s < today ->
  (status s ∈ ["active"; "trialing"] ->
     denies (process_view db today request) "SUBSCRIPTION_EXPIRED") /\
  (status s ∈ ["canceled"; "unpaid"] ->
     denies (process_view db today request) "SUBSCRIPTION_TERMINATED") /\
  (status s = "past_due" ->
     denies (process_view db today request) "PAYMENT_PAST_DUE").
Proof.
  intros Hg Hend. rewrite (gate_on_tenant _ _ _ _ Hg).
  apply Z.ltb_lt in Hend. rewrite Hend.
  split; [|split]; intros Hst.
  - destruct (accepted_not_blocked _ Hst) as [-> ->]. by exists EXPIRED.
  - apply str_in_elem_of in Hst. rewrite Hst. by exists TERMINATED.
  - rewrite Hst. simpl. by exists PAST_DUE.
Qed.

(** An active subscription whose period ended yesterday (day 99). *)
Lemma expired_denied_witness :
  denies (process_view (db_with (sub "active" 99)) 100 post_classes)
    "SUBSCRIPTION_EXPIRED".
Proof.
  apply (expired_denied _ 100 post_classes (sub "active" 99)).
  - apply post_classes_gated.
  - simpl. lia.
  - simpl. apply list_elem_of_In. simpl. tauto.
Defined.

(** C4. On a non-GET, non-bypassed request by an authenticated user
    whose church's subscription has status 'active' or 'trialing' and
    [current_period_end] today or later, the gate lets the request
    through: [process_view] returns [None]. *)
Theorem active_allowed db today request s :
  gated_write db request s ->
  status s ∈ ["active"; "trialing"] ->
  today <= current_period_end s ->
  process_view db today request = Return None.
Proof.
  intros Hg Hst Hend. rewrite (gate_on_tenant _ _ _ _ Hg).
  destruct (accepted_not_blocked _ Hst) as [-> ->].
  apply Z.ltb_ge in Hend. rewrite Hend.
  apply str_in_elem_of in Hst. by rewrite Hst.
Qed.

(** A trial that ends in ten days. *)
Lemma active_allowed_witness :
  process_view (db_with (sub "trialing" 110)) 100 post_classes = Return None.
Proof.
  apply (active_allowed _ 100 post_classes (sub "trialing" 110)).
  - apply post_classes_gated.
  - simpl. apply list_elem_of_In. simpl. tauto.
  - simpl. lia.
Defined.

(** C5. On every request, GET or not and whatever its path, by an
    authenticated user whose church has no row in [subscriptions] (the
    lookup raises [DoesNotExist]), the gate lets the request through. *)
Theorem no_subscription_allowed db today request u c :
  user request = Some (Authenticated u) ->
  church u = Some c ->
  subscriptions db !! c = None ->
  process_view db today request = Return None.
Proof.
  intros Hu Hc Hs. unfold process_view. rewrite Hu, Hc, Hs.
  destruct (startswith (path request) "/api/auth/"); [done|].
  destruct (startswith (path request) "/static/" || startswith (path request) "/admin/");
    [done|].
  by destruct (String.eqb (method request) "GET").
Qed.

Definition no_subscriptions : DB := {| users := [teacher1]; subscriptions := ∅ |}.

Lemma no_subscription_allowed_witness :
  process_view no_subscriptions 100 post_classes = Return None.
Proof.
  apply (no_subscription_allowed no_subscriptions 100 post_classes teacher1 1).
  - reflexivity.
  - reflexivity.
  - apply lookup_empty.
Defined.

(** A logged-in user posting to the church-registration endpoint. *)
Definition post_register : Request :=
  {| path := "/api/church/register/"; method := "POST";
     user := Some (Authenticated teacher1) |}.

Example post_register_canceled :
  process_view (db_with (sub "canceled" 500)) 100 post_register
  = Return (Some TERMINATED).
Proof. reflexivity. Qed.

(** C6 as stated fails: the church-registration path is not among the
    skipped prefixes, so a write to it by a user of a church with a
    canceled subscription is denied. *)
Lemma register_path_is_gated :
  ~ (forall db today request,
       under "/api/auth/" (path request) \/
       path request = "/api/church/register/" ->
       process_view db today request = Return None).
Proof.
  intros H.
  specialize (H (db_with (sub "canceled" 500)) 100 post_register
                (or_intror eq_refl)).
  rewrite post_register_canceled in H. discriminate H.
Qed.

(** C6, amended.  Every request whose path lies under '/api/auth/'
    passes the gate, for every method, user and database.  A request to
    '/api/church/register/' passes it when it is a GET or carries no
    authenticated user (the sign-up case). *)
Theorem auth_paths_bypass db today request :
  under "/api/auth/" (path request) \/
  (path request = "/api/church/register/" /\
   (method request = "GET" \/ user request = None \/
    user request = Some AnonymousUser)) ->
  process_view db today request = Return None.
Proof.
  intros [Hauth | [Hpath Hcase]]; unfold process_view.
  - apply startswith_under in Hauth. by rewrite Hauth.
  - rewrite Hpath. simpl.
    destruct Hcase as [-> | [-> | ->]]; [done | |];
      by destruct (String.eqb (method request) "GET").
Qed.

(** A login by a user whose church's subscription is canceled. *)
Lemma auth_paths_bypass_witness :
  process_view (db_with (sub "canceled" 500)) 100
    {| path := "/api/auth/login/"; method := "POST";
       user := Some (Authenticated teacher1) |}
  = Return None.
Proof.
  apply auth_paths_bypass. left. simpl. by exists "login/".
Defined.

(** C9. The default denial is dead code on well-formed data: when the
    subscription of the acting user's church has one of the five declared
    statuses, the gate never answers with code
    SUBSCRIPTION_ACCESS_DENIED; and whenever it does answer with that
    code, the request is by an authenticated user whose church's
    subscription has a status outside the declared choices and a
    [current_period_end] that is not yet past. *)
Theorem default_deny_unreachable db today request :
  (forall u c s,
     user request = Some (Authenticated u) ->
     church u = Some c ->
     subscriptions db !! c = Some s ->
     status s ∈ STATUS_CHOICES ->
     ~ exists r, process_view db today request = Return (Some r) /\
                 code r = "SUBSCRIPTION_ACCESS_DENIED") /\
  (forall r,
     process_view db today request = Return (Some r) ->
     code r = "SUBSCRIPTION_ACCESS_DENIED" ->
     exists u c s,
       user request = Some (Authenticated u) /\
       church u = Some c /\
       subscriptions db !! c = Some s /\
       (status s ∉ STATUS_CHOICES) /\
       today <= current_period_end s).
Proof.
  assert (forall r,
     process_view db today request = Return (Some r) ->
     code r = "SUBSCRIPTION_ACCESS_DENIED" ->
     exists u c s,
       user request = Some (Authenticated u) /\
       church u = Some c /\
       subscriptions db !! c = Some s /\
       (status s ∉ STATUS_CHOICES) /\
       today <= current_period_end s) as Honly.
  { intros r Hr Hcode. unfold process_view in Hr.
    destruct (startswith (path request) "/api/auth/"); [discriminate|].
    destruct (startswith (path request) "/static/"
              || startswith (path request) "/admin/"); [discriminate|].
    destruct (String.eqb (method request) "GET"); [discriminate|].
    destruct (user request) as [[|u]|] eqn:Hu; try discriminate.
    destruct (church u) as [c|] eqn:Hc; [|discriminate].
    destruct (subscriptions db !! c) as [s|] eqn:Hs; [|discriminate].
    exists u, c, s. do 3 (split; [done|]).
    destruct (str_in (status s) ["canceled"; "unpaid"]) eqn:E1;
      [injection Hr as <-; discriminate Hcode|].
    destruct (String.eqb (status s) "past_due") eqn:E2;
      [injection Hr as <-; discriminate Hcode|].
    destruct (current_period_end s <? today) eqn:E3;
      [injection Hr as <-; discriminate Hcode|].
    destruct (str_in (status s) ["active"; "trialing"]) eqn:E4; [discriminate|].
    split; [|by apply Z.ltb_ge].
    intros Hin. apply list_elem_of_In in Hin. simpl in Hin.
    destruct Hin as [H|[H|[H|[H|[H|[]]]]]]; rewrite <- H in *; discriminate. }
  split; [|exact Honly].
  intros u c s Hu Hc Hs Hin [r [Hr Hcode]].
  destruct (Honly r Hr Hcode) as (u' & c' & s' & Hu' & Hc' & Hs' & Hout & _).
  rewrite Hu in Hu'. injection Hu' as <-.
  rewrite Hc in Hc'. injection Hc' as <-.
  rewrite Hs in Hs'. injection Hs' as <-.
  contradiction.
Qed.

(** The final branch is reached by a status the model does not declare,
    here 'paused', with a period that has not lapsed. *)
Lemma default_deny_unreachable_witness :
  exists u c s,
    user post_classes = Some (Authenticated u) /\
    church u = Some c /\
    subscriptions (db_with (sub "paused" 500)) !! c = Some s /\
    (status s ∉ STATUS_CHOICES) /\
    100 <= current_period_end s.
Proof.
  apply (proj2 (default_deny_unreachable (db_with (sub "paused" 500)) 100 post_classes)
           ACCESS_DENIED).
  - reflexivity.
  - reflexivity.
Defined.

End GateProperties.

(** ** Deleting users *)

Module UserProperties.
Import Models.

(** Another row of the same church that is an active superintendent. *)
Definition other_active_superintendent (db : DB) (self : CustomUser) : Prop :=
  exists u, u ∈ users db /\
            id u <> id self /\
            church u = church self /\
            role u = "superintendent" /\
            is_active u = true.

Lemma user_matches_spec c r a u :
  user_matches c r a u = true <-> church u = c /\ role u = r /\ is_active u = a.
Proof.
  unfold user_matches.
  rewrite !andb_true_iff, bool_decide_eq_true, String.eqb_eq, Bool.eqb_true_iff.
  tauto.
Qed.

Lemma elem_of_exclude_id i qs u :
  u ∈ exclude_id i qs <-> u ∈ qs /\ id u <> i.
Proof.
  unfold exclude_id.
  rewrite !list_elem_of_In, filter_In, negb_true_iff, Z.eqb_neq. tauto.
Qed.

Lemma qs_exists_spec {A} (qs : list A) : qs_exists qs = true <-> exists x, x ∈ qs.
Proof.
  destruct qs as [|x qs]; simpl.
  - split; [done | intros [x Hx]; by apply elem_of_nil in Hx].
  - split; [intros _; exists x; apply list_elem_of_here | done].
Qed.

(** The query of [CustomUser.delete] finds a row exactly when another
    active superintendent of the church exists. *)
Lemma other_superintendents_exists db self :
  qs_exists
    (exclude_id (id self)
       (List.filter (user_matches (church self) "superintendent" true) (users db)))
  = true
  <-> other_active_superintendent db self.
Proof.
  rewrite qs_exists_spec. unfold other_active_superintendent.
  split; intros [u Hu]; exists u; revert Hu;
    rewrite elem_of_exclude_id, !list_elem_of_In, filter_In, user_matches_spec;
    tauto.
Qed.

(** C8. Deleting a user with role 'superintendent': when no other user
    of the same church with role 'superintendent' and [is_active = True]
    exists, [delete] raises [ValidationError] and the database is left as
    it was (the user remains); otherwise the deletion proceeds: the row
    with the user's id is gone and every other row is kept. *)
Theorem delete_last_superintendent_refused db self :
  role self = "superintendent" ->
  (~ other_active_superintendent db self ->
     CustomUser_delete db self
     = (Raise (ValidationError "Cannot delete the last superintendent."), db)) /\
  (other_active_superintendent db self ->
     exists db',
       CustomUser_delete db self = (Return tt, db') /\
       subscriptions db' = subscriptions db /\
       forall u, u ∈ users db' <-> u ∈ users db /\ id u <> id self).
Proof.
  intros Hrole. unfold CustomUser_delete. rewrite Hrole. simpl.
  pose proof (other_superintendents_exists db self) as Hq.
  destruct (qs_exists _) eqn:E; simpl.
  - split; [intros Hn; exfalso; apply Hn; by apply Hq|].
    intros _. exists (super_delete db self).
    split; [done | split; [done|]].
    intros u. apply elem_of_exclude_id.
  - split; [done|]. intros Ho. apply Hq in Ho. discriminate Ho.
Qed.

(** Church 1 with two active superintendents, church 2 with one. *)
Definition sup (i c : Z) (active : bool) : CustomUser :=
  {| id := i; church := Some c; role := "superintendent"; is_active := active;
     is_officer := false |}.

Definition three_superintendents : DB :=
  {| users := [sup 1 1 true; sup 2 1 true; sup 3 2 true]; subscriptions := ∅ |}.

(** User 3 is the only superintendent of church 2 and is refused;
    user 1 has user 2 beside it in church 1 and is deleted. *)
Lemma delete_last_superintendent_refused_witness :
  CustomUser_delete three_superintendents (sup 3 2 true)
  = (Raise (ValidationError "Cannot delete the last superintendent."),
     three_superintendents) /\
  exists db',
    CustomUser_delete three_superintendents (sup 1 1 true) = (Return tt, db') /\
    subscriptions db' = subscriptions three_superintendents /\
    forall u, u ∈ users db' <->
              u ∈ users three_superintendents /\ id u <> id (sup 1 1 true).
Proof.
  split.
  - apply (proj1 (delete_last_superintendent_refused three_superintendents
                    (sup 3 2 true) eq_refl)).
    intros (u & Hu & Hid & Hc & _).
    apply list_elem_of_In in Hu. simpl in Hu.
    destruct Hu as [<-|[<-|[<-|[]]]]; simpl in *; congruence.
  - apply (proj2 (delete_last_superintendent_refused three_superintendents
                    (sup 1 1 true) eq_refl)).
    exists (sup 2 1 true). split; [|done].
    apply list_elem_of_In. simpl. tauto.
Defined.

Example delete_only_superintendent :
  CustomUser_delete three_superintendents (sup 3 2 true)
  = (Raise (ValidationError "Cannot delete the last superintendent."),
     three_superintendents).
Proof. reflexivity. Qed.

Example delete_one_of_two :
  CustomUser_delete three_superintendents (sup 1 1 true)
  = (Return tt, {| users := [sup 2 1 true; sup 3 2 true]; subscriptions := ∅ |}).
Proof. reflexivity. Qed.

(** A teacher is deleted without the check. *)
Example delete_teacher :
  CustomUser_delete
    {| users := [{| id := 9; church := Some 2; role := "teacher";
                    is_active := true; is_officer := false |}];
       subscriptions := ∅ |}
    {| id := 9; church := Some 2; role := "teacher"; is_active := true;
       is_officer := false |}
  = (Return tt, {| users := []; subscriptions := ∅ |}).
Proof. reflexivity. Qed.

End UserProperties.

(** ** The subscription lifecycle *)

Module LifecycleProperties.
Import Models Serializers Views.

(** The plan durations in days: monthly 30, quarterly 90, annual 365. *)
Definition plan_days : list (string * Z) :=
  [("monthly", 30); ("quarterly", 90); ("annual", 365)].

(** Sample data: the superintendent of church 1, whose trial ends on
    day 110. *)
Definition superintendent1 : CustomUser :=
  {| id := 1; church := Some 1; role := "superintendent"; is_active := true;
     is_officer := false |}.

Definition trial : Subscription :=
  {| plan := "free_trial"; status := "trialing"; trial_end_date := 110;
     current_period_end := 110; grace_period_end := None |}.

Definition on_trial : DB :=
  {| users := [superintendent1]; subscriptions := {[ 1 := trial ]} |}.

Definition new_church : DB :=
  {| users := [superintendent1]; subscriptions := ∅ |}.

Definition pay_monthly : gmap string string :=
  {[ "plan" := "monthly"; "phone_number" := "0240000000" ]}.

Example initiate_payment_monthly :
  initiate_payment on_trial 100 1700000000 superintendent1 pay_monthly
  = (Return {| body := PaymentInitiated true "MTN_1700000000" "monthly" 50 "GHS"
                 "Payment initiated successfully. Please check your phone to complete payment.";
               status_code := 200 |},
     on_trial).
Proof. reflexivity. Qed.

(** C7 as stated fails for initiate-payment: the view answers without
    writing, so the subscription keeps its status and period end. *)
Lemma initiate_payment_no_transition :
  ~ (forall db today now_ts user c s data p d,
       church user = Some c ->
       subscriptions db !! c = Some s ->
       data !! "plan" = Some p ->
       (p, d) ∈ plan_days ->
       exists s',
         subscriptions (snd (initiate_payment db today now_ts user data)) !! c
         = Some s' /\
         status s' = "active" /\
         current_period_end s' = today + d).
Proof.
  intros H.
  destruct (H on_trial 100 1700000000 superintendent1 1 trial pay_monthly
              "monthly" 30) as (s' & Hs' & Hst & _).
  - reflexivity.
  - apply lookup_singleton_eq.
  - reflexivity.
  - apply list_elem_of_here.
  - rewrite initiate_payment_monthly in Hs'. simpl in Hs'.
    rewrite lookup_singleton_eq in Hs'. injection Hs' as <-. discriminate Hst.
Qed.

(** C7, amended.  For a church with an existing subscription and a plan
    among monthly, quarterly and annual: verify-payment answers 200 and
    rewrites that church's subscription with the plan, status 'active'
    and [current_period_end] today plus the plan's duration, leaving its
    trial end, the other churches' subscriptions and the users as they
    were; this holds for every [transaction_id] (nothing is assumed of
    the request data but its plan).  Initiate-payment answers too, and
    leaves the database unchanged. *)
Theorem verify_payment_activates db today user c s data p d :
  church user = Some c ->
  subscriptions db !! c = Some s ->
  data !! "plan" = Some p ->
  (p, d) ∈ plan_days ->
  (exists resp db',
     verify_payment db today user data = (Return resp, db') /\
     status_code resp = 200 /\
     subscriptions db' !! c
     = Some {| plan := p; status := "active";
               trial_end_date := trial_end_date s;
               current_period_end := today + d;
               grace_period_end := grace_period_end s |} /\
     (forall c', c' <> c -> subscriptions db' !! c' = subscriptions db !! c') /\
     users db' = users db) /\
  (forall now_ts,
     exists resp,
       initiate_payment db today now_ts user data = (Return resp, db) /\
       status_code resp = 200).
Proof.
  intros Hc Hs Hp Hin.
  assert (p = "monthly" /\ d = 30 \/ p = "quarterly" /\ d = 90 \/
          p = "annual" /\ d = 365) as Hcases.
  { apply list_elem_of_In in Hin. simpl in Hin.
    destruct Hin as [H|[H|[H|[]]]]; injection H as <- <-; tauto. }
  split.
  - unfold verify_payment, Subscription_objects_get. rewrite Hc, Hs, Hp.
    eexists _, _. split; [reflexivity|].
    split; [reflexivity|]. simpl. split; [|split; [|reflexivity]].
    + rewrite lookup_insert_eq.
      destruct Hcases as [[-> ->]|[[-> ->]|[-> ->]]]; reflexivity.
    + intros c' Hne. by apply lookup_insert_ne.
  - intros now_ts. unfold initiate_payment. rewrite Hp.
    destruct Hcases as [[-> ->]|[[-> ->]|[-> ->]]]; eexists; split; reflexivity.
Qed.

Definition verify_quarterly : gmap string string :=
  {[ "plan" := "quarterly"; "transaction_id" := "no such transaction" ]}.

(** A quarterly payment on day 100 with a made-up transaction id moves
    the trial to 'active' until day 190. *)
Lemma verify_payment_activates_witness :
  (exists resp db',
     verify_payment on_trial 100 superintendent1 verify_quarterly = (Return resp, db') /\
     status_code resp = 200 /\
     subscriptions db' !! 1
     = Some {| plan := "quarterly"; status := "active"; trial_end_date := 110;
               current_period_end := 190; grace_period_end := None |} /\
     (forall c', c' <> 1 ->
                 subscriptions db' !! c' = subscriptions on_trial !! c') /\
     users db' = users on_trial) /\
  (forall now_ts,
     exists resp,
       initiate_payment on_trial 100 now_ts superintendent1 verify_quarterly
       = (Return resp, on_trial) /\
       status_code resp = 200).
Proof.
  apply (verify_payment_activates on_trial 100 superintendent1 1 trial
           verify_quarterly "quarterly" 90).
  - reflexivity.
  - apply lookup_singleton_eq.
  - reflexivity.
  - apply list_elem_of_In. simpl. tauto.
Defined.

(** Outside the three paid plans [verify_payment] still activates, for a
    year, and stores the plan it was given. *)
Example verify_payment_unknown_plan :
  subscriptions
    (snd (verify_payment on_trial 100 superintendent1 {[ "plan" := "weekly" ]})) !! 1
  = Some {| plan := "weekly"; status := "active"; trial_end_date := 110;
            current_period_end := 465; grace_period_end := None |}.
Proof. reflexivity. Qed.

(** What [create_subscription] hands to the serializer, and what the
    serializer keeps of it. *)
Example create_serializer_keeps :
  validated_data
    [("church", VInt 1); ("plan", VStr "free_trial"); ("status", VStr "trialing");
     ("trial_end_date", VDate 160); ("current_period_end", VDate 160)]
  = [("plan", VStr "free_trial"); ("trial_end_date", VDate 160);
     ("current_period_end", VDate 160)].
Proof. reflexivity. Qed.

(** With the church among its arguments the manager does insert the
    trial row. *)
Example objects_create_with_church :
  Subscription_objects_create new_church
    [("church", VInt 1); ("plan", VStr "free_trial");
     ("trial_end_date", VDate 160); ("current_period_end", VDate 160)]
  = (Return (1, {| plan := "free_trial"; status := "trialing";
                   trial_end_date := 160; current_period_end := 160;
                   grace_period_end := None |}),
     {| users := [superintendent1];
        subscriptions :=
          <[ 1 := {| plan := "free_trial"; status := "trialing";
                     trial_end_date := 160; current_period_end := 160;
                     grace_period_end := None |} ]> ∅ |}).
Proof. reflexivity. Qed.

(** With a subscription already stored for the church,
    [create_subscription] answers 400 and changes nothing. *)
Lemma create_subscription_existing db today user c s :
  church user = Some c ->
  subscriptions db !! c = Some s ->
  create_subscription db today user
  = (Return {| body := ErrorBody "Subscription already exists for this church";
               status_code := 400 |}, db).
Proof.
  intros Hc Hs. unfold create_subscription, Subscription_objects_get.
  by rewrite Hc, Hs.
Qed.

(** C10, as the code behaves: for a church without a subscription the
    view does not create one and does not answer 201.
    The create serializer declares only [plan], [trial_end_date] and
    [current_period_end], so the church (and the status) put into
    [subscription_data] never reach the manager, the INSERT violates the
    NOT NULL constraint of [church] and [IntegrityError] leaves the view;
    the table is unchanged. *)
Theorem create_subscription_integrity_error db today user c :
  church user = Some c ->
  subscriptions db !! c = None ->
  create_subscription db today user = (Raise IntegrityError, db).
Proof.
  intros Hc Hs. unfold create_subscription, Subscription_objects_get.
  by rewrite Hc, Hs.
Qed.

Lemma create_subscription_integrity_error_witness :
  create_subscription new_church 100 superintendent1
  = (Raise IntegrityError, new_church).
Proof.
  apply (create_subscription_integrity_error new_church 100 superintendent1 1).
  - reflexivity.
  - apply lookup_empty.
Defined.

End LifecycleProperties.

(** ** The gate beyond its deny and allow rules *)

Module GateFacts.
Import Models Middleware Serializers GateProperties.

(** X1. The lookup-free ways through the gate: a path under '/static/' or
    '/admin/', a GET, a request without user or with the anonymous user.
    Each returns [None] whatever the database holds, also for a user
    without church. *)
Theorem pass_without_lookup db today request :
  under "/static/" (path request) \/
  under "/admin/" (path request) \/
  method request = "GET" \/
  user request = None \/
  user request = Some AnonymousUser ->
  process_view db today request = Return None.
Proof.
  intros H. unfold process_view.
  destruct (startswith (path request) "/api/auth/"); [done|].
  destruct H as [H|[H|[H|[H|H]]]].
  - apply startswith_under in H. by rewrite H.
  - apply startswith_under in H. rewrite H. by rewrite orb_true_r.
  - rewrite H. simpl. by destruct (_ || _).
  - rewrite H. destruct (_ || _); [done|]. by destruct (String.eqb _ _).
  - rewrite H. destruct (_ || _); [done|]. by destruct (String.eqb _ _).
Qed.

(** A GET of the class list by a teacher whose church is canceled. *)
Lemma pass_without_lookup_witness :
  process_view (db_with (sub "canceled" 50)) 100
    {| path := "/api/classes/"; method := "GET";
       user := Some (Authenticated teacher1) |}
  = Return None.
Proof.
  apply pass_without_lookup. right; right; left. reflexivity.
Defined.

(** X2. The gate raises in one situation only: a write outside the skipped
    prefixes by a logged-in user whose [church] is [None] (a system
    administrator), where reading [church.subscription] fails with
    [AttributeError]. *)
Theorem raises_only_without_church db today request e :
  process_view db today request = Raise e <->
  e = AttributeError /\
  not_bypassed (path request) /\
  method request <> "GET" /\
  exists u, user request = Some (Authenticated u) /\ church u = None.
Proof.
  unfold process_view. split.
  - destruct (startswith (path request) "/api/auth/") eqn:E1; [discriminate|].
    destruct (startswith (path request) "/static/") eqn:E2; [discriminate|].
    destruct (startswith (path request) "/admin/") eqn:E3; [discriminate|].
    cbn [orb].
    destruct (String.eqb (method request) "GET") eqn:E4; [discriminate|].
    destruct (user request) as [[|u]|]; try discriminate.
    destruct (church u) as [c|] eqn:Hc.
    + destruct (subscriptions db !! c) as [s|]; [|discriminate].
      destruct (str_in (status s) ["canceled"; "unpaid"]); [discriminate|].
      destruct (String.eqb (status s) "past_due"); [discriminate|].
      destruct (current_period_end s <? today); [discriminate|].
      by destruct (str_in (status s) ["active"; "trialing"]).
    + intros H. injection H as <-.
      split; [done|]. split; [by apply not_bypassed_dec|].
      split; [by apply String.eqb_neq|]. by exists u.
  - intros (-> & (H1 & H2 & H3) & Hget & u & Hu & Hc).
    rewrite (startswith_not_under _ _ H1), (startswith_not_under _ _ H2),
      (startswith_not_under _ _ H3), (eqb_neq_false _ _ Hget), Hu, Hc.
    reflexivity.
Qed.

(** X3. Every response the gate produces is a 402 whose code is one of the
    four denial codes, with a non-empty error and message, and it is
    produced only for a write by a logged-in user whose church has a
    subscription row. *)
Theorem denial_shape db today request r :
  process_view db today request = Return (Some r) ->
  status_code r = 402 /\
  code r ∈ ["SUBSCRIPTION_TERMINATED"; "PAYMENT_PAST_DUE";
            "SUBSCRIPTION_EXPIRED"; "SUBSCRIPTION_ACCESS_DENIED"] /\
  error r <> "" /\
  message r <> "" /\
  exists s, gated_write db request s.
Proof.
  unfold process_view.
  destruct (startswith (path request) "/api/auth/") eqn:E1; [discriminate|].
  destruct (startswith (path request) "/static/") eqn:E2; [discriminate|].
  destruct (startswith (path request) "/admin/") eqn:E3; [discriminate|].
  cbn [orb].
  destruct (String.eqb (method request) "GET") eqn:E4; [discriminate|].
  destruct (user request) as [[|u]|] eqn:Hu; try discriminate.
  destruct (church u) as [c|] eqn:Hc; [|discriminate].
  destruct (subscriptions db !! c) as [s|] eqn:Hs; [|discriminate].
  intros H.
  assert (gated_write db request s) as Hg.
  { split; [by apply not_bypassed_dec|].
    split; [by apply String.eqb_neq|]. by exists u, c. }
  assert (r = TERMINATED \/ r = PAST_DUE \/ r = EXPIRED \/ r = ACCESS_DENIED)
    as Hr.
  { destruct (str_in (status s) ["canceled"; "unpaid"]);
      [injection H as <-; tauto|].
    destruct (String.eqb (status s) "past_due"); [injection H as <-; tauto|].
    destruct (current_period_end s <? today); [injection H as <-; tauto|].
    destruct (str_in (status s) ["active"; "trialing"]); [discriminate H|].
    injection H as <-; tauto. }
  destruct Hr as [-> | [-> | [-> | ->]]];
    (split; [reflexivity|]); (split; [apply list_elem_of_In; simpl; tauto|]);
    (split; [discriminate|]); (split; [discriminate|]); by exists s.
Qed.

Lemma denial_shape_witness :
  status_code PAST_DUE = 402 /\
  code PAST_DUE ∈ ["SUBSCRIPTION_TERMINATED"; "PAYMENT_PAST_DUE";
                   "SUBSCRIPTION_EXPIRED"; "SUBSCRIPTION_ACCESS_DENIED"] /\
  error PAST_DUE <> "" /\
  message PAST_DUE <> "" /\
  exists s, gated_write (db_with (sub "past_due" 500)) post_classes s.
Proof.
  apply (denial_shape (db_with (sub "past_due" 500)) 100 post_classes PAST_DUE).
  reflexivity.
Defined.

(** Case analysis on the status tests of the gate and of the
    serializer; combinations in which the status equals two different
    literals are closed. *)
Ltac status_cases st :=
  unfold str_in; cbn [existsb orb];
  destruct (String.eqb st "canceled") eqn:?;
  destruct (String.eqb st "unpaid") eqn:?;
  destruct (String.eqb st "past_due") eqn:?;
  destruct (String.eqb st "active") eqn:?;
  destruct (String.eqb st "trialing") eqn:?;
  cbn [orb andb negb];
  try (exfalso;
       repeat match goal with
              | H : String.eqb _ _ = true |- _ => apply String.eqb_eq in H
              end;
       congruence).

(** The chain of checks ends in [None] exactly when the serializer's
    [get_is_active] holds. *)
Lemma checks_pass_iff_is_active today s :
  (if str_in (status s) ["canceled"; "unpaid"] then Return (Some TERMINATED)
   else if String.eqb (status s) "past_due" then Return (Some PAST_DUE)
   else if current_period_end s <? today then Return (Some EXPIRED)
   else if str_in (status s) ["active"; "trialing"] then Return None
   else Return (Some ACCESS_DENIED)) = Return None
  <-> get_is_active today s = true.
Proof.
  unfold get_is_active.
  rewrite (Z.leb_antisym (current_period_end s) today).
  destruct (current_period_end s <? today); status_cases (status s);
    split; intros H; first [done | discriminate H].
Qed.

(** X4. What the status endpoint reports as [is_active] is what the gate
    enforces: on a write by a logged-in user of a church with subscription
    [s], the gate lets the request through exactly when
    [SubscriptionSerializer.get_is_active] is true for [s]. *)
Theorem gate_agrees_with_is_active db today request s :
  gated_write db request s ->
  (process_view db today request = Return None <-> get_is_active today s = true).
Proof.
  intros Hg. rewrite (gate_on_tenant _ _ _ _ Hg). apply checks_pass_iff_is_active.
Qed.

Lemma gate_agrees_with_is_active_witness :
  process_view (db_with (sub "trialing" 110)) 100 post_classes = Return None
  <-> get_is_active 100 (sub "trialing" 110) = true.
Proof.
  apply (gate_agrees_with_is_active _ 100 post_classes (sub "trialing" 110)).
  apply post_classes_gated.
Defined.

(** X5. Time only closes the gate.  For the same stored subscription, a write
    that passes on a day also passes on every earlier day, and a write
    that is denied on a day is denied (possibly with another code) on
    every later day. *)
Theorem gate_monotone_in_time db request s d1 d2 :
  gated_write db request s ->
  d1 <= d2 ->
  (process_view db d2 request = Return None ->
   process_view db d1 request = Return None) /\
  (forall c, denies (process_view db d1 request) c ->
             exists c', denies (process_view db d2 request) c').
Proof.
  intros Hg Hd. rewrite !(gate_on_tenant _ _ _ _ Hg).
  destruct (current_period_end s <? d1) eqn:E1;
    destruct (current_period_end s <? d2) eqn:E2;
    try (apply Z.ltb_lt in E1; apply Z.ltb_ge in E2; lia);
    status_cases (status s);
    (split; [intros H; first [done | discriminate H] |]);
    intros c (r & Hr & _); try discriminate Hr.
  all: first [ by exists "SUBSCRIPTION_TERMINATED", TERMINATED
             | by exists "PAYMENT_PAST_DUE", PAST_DUE
             | by exists "SUBSCRIPTION_EXPIRED", EXPIRED
             | by exists "SUBSCRIPTION_ACCESS_DENIED", ACCESS_DENIED ].
Qed.

(** A trial ending on day 110 passes on day 110, hence on day 100; an
    unknown status is denied on day 100, hence on day 200. *)
Lemma gate_monotone_in_time_witness :
  process_view (db_with (sub "trialing" 110)) 100 post_classes = Return None /\
  exists c', denies (process_view (db_with (sub "paused" 110)) 200 post_classes) c'.
Proof.
  split.
  - apply (proj1 (gate_monotone_in_time _ post_classes (sub "trialing" 110) 100 110
                    (post_classes_gated _) ltac:(lia))).
    reflexivity.
  - apply (proj2 (gate_monotone_in_time _ post_classes (sub "paused" 110) 100 200
                    (post_classes_gated _) ltac:(lia))
             "SUBSCRIPTION_ACCESS_DENIED").
    by exists ACCESS_DENIED.
Defined.

(** X6. The gate reads two columns only.  Two writes by logged-in users whose
    churches' subscriptions agree on [status] and [current_period_end] get
    the same answer, whatever the path, method, user and role, and
    whatever the plan, the trial end and the grace period are: in
    particular [grace_period_end] never extends access. *)
Theorem gate_reads_status_and_period db1 db2 today request1 request2 s1 s2 :
  gated_write db1 request1 s1 ->
  gated_write db2 request2 s2 ->
  status s1 = status s2 ->
  current_period_end s1 = current_period_end s2 ->
  process_view db1 today request1 = process_view db2 today request2.
Proof.
  intros H1 H2 Hst Hend.
  rewrite (gate_on_tenant _ _ _ _ H1), (gate_on_tenant _ _ _ _ H2).
  by rewrite Hst, Hend.
Qed.

(** A past-due subscription with a grace period running to day 400 is
    answered like one without. *)
Lemma gate_reads_status_and_period_witness :
  process_view
    (db_with {| plan := "annual"; status := "past_due"; trial_end_date := 10;
                current_period_end := 300; grace_period_end := Some 400 |})
    100 post_classes
  = process_view (db_with (sub "past_due" 300)) 100 post_classes.
Proof.
  apply gate_reads_status_and_period with
    (s1 := {| plan := "annual"; status := "past_due"; trial_end_date := 10;
              current_period_end := 300; grace_period_end := Some 400 |})
    (s2 := sub "past_due" 300).
  - apply post_classes_gated.
  - apply post_classes_gated.
  - reflexivity.
  - reflexivity.
Defined.

(** X7. Each denial code names its cause.  On a write by a logged-in user
    of a church with subscription [s]: SUBSCRIPTION_TERMINATED is answered
    only for status 'canceled' or 'unpaid', PAYMENT_PAST_DUE only for
    status 'past_due', and SUBSCRIPTION_EXPIRED only for a period that
    ended before today under a status that is none of these three. *)
Theorem denial_code_names_cause db today request s r :
  gated_write db request s ->
  process_view db today request = Return (Some r) ->
  (code r = "SUBSCRIPTION_TERMINATED" -> status s ∈ ["canceled"; "unpaid"]) /\
  (code r = "PAYMENT_PAST_DUE" -> status s = "past_due") /\
  (code r = "SUBSCRIPTION_EXPIRED" ->
   current_period_end s < today /\
   (status s ∉ ["canceled"; "unpaid"]) /\
   status s <> "past_due").
Proof.
  intros Hg. rewrite (gate_on_tenant _ _ _ _ Hg).
  destruct (str_in (status s) ["canceled"; "unpaid"]) eqn:E1.
  { intros H. injection H as <-. apply str_in_elem_of in E1.
    split; [done|]. split; intros H; discriminate H. }
  destruct (String.eqb (status s) "past_due") eqn:E2.
  { intros H. injection H as <-. apply String.eqb_eq in E2.
    split; [intros H; discriminate H|]. split; [done|]. intros H; discriminate H. }
  destruct (current_period_end s <? today) eqn:E3.
  { intros H. injection H as <-.
    split; [intros H; discriminate H|]. split; [intros H; discriminate H|].
    intros _. split; [by apply Z.ltb_lt|]. split.
    - intros Hin. apply str_in_elem_of in Hin. congruence.
    - by apply String.eqb_neq. }
  destruct (str_in (status s) ["active"; "trialing"]); [discriminate|].
  intros H. injection H as <-.
  split; [intros H; discriminate H|]. split; intros H; discriminate H.
Qed.

Lemma denial_code_names_cause_witness :
  (code EXPIRED = "SUBSCRIPTION_TERMINATED" ->
   status (sub "trialing" 99) ∈ ["canceled"; "unpaid"]) /\
  (code EXPIRED = "PAYMENT_PAST_DUE" -> status (sub "trialing" 99) = "past_due") /\
  (code EXPIRED = "SUBSCRIPTION_EXPIRED" ->
   current_period_end (sub "trialing" 99) < 100 /\
   (status (sub "trialing" 99) ∉ ["canceled"; "unpaid"]) /\
   status (sub "trialing" 99) <> "past_due").
Proof.
  apply (denial_code_names_cause (db_with (sub "trialing" 99)) 100 post_classes).
  - apply post_classes_gated.
  - reflexivity.
Defined.

End GateFacts.

(** ** The subscription endpoints beyond activation *)

Module LifecycleFacts.
Import Models Serializers Views LifecycleProperties.

(** X8. [get_days_remaining] is never negative.  For an 'active'
    subscription, and for a 'trialing' one whose trial end is its period
    end (as every trial created by the code is), a positive count implies
    [is_active], and while [is_active] holds the count runs out exactly at
    [current_period_end]. *)
Theorem days_remaining_sound today s :
  0 <= get_days_remaining today s /\
  (status s = "active" \/
   (status s = "trialing" /\ trial_end_date s = current_period_end s) ->
   (0 < get_days_remaining today s -> get_is_active today s = true) /\
   (get_is_active today s = true ->
    today + get_days_remaining today s = current_period_end s)).
Proof.
  unfold get_days_remaining, get_is_active. split.
  - destruct (String.eqb (status s) "trialing");
      destruct (_ <=? _) eqn:E; try lia; apply Z.leb_le in E; lia.
  - intros [Hst | [Hst Heq]]; rewrite Hst; cbn; [|rewrite Heq];
      destruct (today <=? current_period_end s) eqn:E;
      try apply Z.leb_le in E; split; intros H; first [done | lia | discriminate H].
Qed.

Lemma days_remaining_sound_witness :
  0 <= get_days_remaining 100 trial /\
  (0 < get_days_remaining 100 trial -> get_is_active 100 trial = true) /\
  (get_is_active 100 trial = true ->
   100 + get_days_remaining 100 trial = current_period_end trial).
Proof.
  destruct (days_remaining_sound 100 trial) as [H0 H].
  split; [exact H0|]. apply H. right. split; reflexivity.
Defined.

(** X9. The three outcomes of [verify_payment].  Without a subscription (a
    user without church, or a church without row) it answers 404; with a
    subscription but no plan in the request it raises [IntegrityError]
    (the UPDATE sets the plan to NULL); in both cases nothing is written.
    With a subscription and any plan that fits the column (at most 20
    characters) it answers 200.  The transaction id plays no part in any
    of them. *)
Theorem verify_payment_outcomes db today user data :
  (Subscription_objects_get db (church user) = None ->
   verify_payment db today user data
   = (Return {| body := ErrorBody "Subscription not found"; status_code := 404 |},
      db)) /\
  (is_Some (Subscription_objects_get db (church user)) ->
   data !! "plan" = None ->
   verify_payment db today user data = (Raise IntegrityError, db)) /\
  (is_Some (Subscription_objects_get db (church user)) ->
   (exists p, data !! "plan" = Some p /\ (String.length p <= 20)%nat) ->
   exists r db',
     verify_payment db today user data = (Return r, db') /\
     status_code r = 200).
Proof.
  unfold verify_payment. split; [|split].
  - by intros ->.
  - intros [[c s] ->] ->. reflexivity.
  - intros [[c s] ->] (p & -> & _). eexists _, _. split; reflexivity.
Qed.

Lemma verify_payment_outcomes_witness :
  verify_payment new_church 100 superintendent1 pay_monthly
  = (Return {| body := ErrorBody "Subscription not found"; status_code := 404 |},
     new_church) /\
  verify_payment on_trial 100 superintendent1 {[ "transaction_id" := "MTN_1" ]}
  = (Raise IntegrityError, on_trial).
Proof.
  split.
  - apply (proj1 (verify_payment_outcomes new_church 100 superintendent1 pay_monthly)).
    reflexivity.
  - apply (proj1 (proj2 (verify_payment_outcomes on_trial 100 superintendent1
                           {[ "transaction_id" := "MTN_1" ]}))).
    + by exists (1, trial).
    + reflexivity.
Defined.

(** X10. [verify_payment] does not check the plan against the plan choices:
    every plan of at most 20 characters other than 'monthly' and
    'quarterly' (not only 'annual', also 'free_trial' or a name that is no
    plan at all) activates the subscription for 365 days and is stored as
    the subscription's plan. *)
Theorem verify_payment_any_plan db today user c s data p :
  church user = Some c ->
  subscriptions db !! c = Some s ->
  data !! "plan" = Some p ->
  (String.length p <= 20)%nat ->
  p <> "monthly" ->
  p <> "quarterly" ->
  subscriptions (snd (verify_payment db today user data)) !! c
  = Some {| plan := p; status := "active";
            trial_end_date := trial_end_date s;
            current_period_end := today + 365;
            grace_period_end := grace_period_end s |}.
Proof.
  intros Hc Hs Hp _ Hm Hq.
  unfold verify_payment, Subscription_objects_get. rewrite Hc, Hs, Hp. cbn.
  rewrite lookup_insert_eq.
  rewrite !bool_decide_eq_false_2 by congruence. reflexivity.
Qed.

Lemma verify_payment_any_plan_witness :
  subscriptions
    (snd (verify_payment on_trial 100 superintendent1 {[ "plan" := "free_trial" ]})) !! 1
  = Some {| plan := "free_trial"; status := "active"; trial_end_date := 110;
            current_period_end := 465; grace_period_end := None |}.
Proof.
  apply (verify_payment_any_plan on_trial 100 superintendent1 1 trial
           {[ "plan" := "free_trial" ]} "free_trial").
  - reflexivity.
  - apply lookup_singleton_eq.
  - reflexivity.
  - cbn. lia.
  - discriminate.
  - discriminate.
Defined.

(** X11. Verifying twice on the same day with the same plan, under any two
    transaction ids, leaves the database as the first verification left
    it: the period runs from today, nothing of the previous period is
    carried over and nothing accumulates. *)
Theorem verify_payment_idempotent db today user data1 data2 :
  data1 !! "plan" = data2 !! "plan" ->
  snd (verify_payment (snd (verify_payment db today user data1)) today user data2)
  = snd (verify_payment db today user data1).
Proof.
  intros Hp. unfold verify_payment at 2 3.
  destruct (Subscription_objects_get db (church user)) as [[c s]|] eqn:Hget.
  - destruct (data1 !! "plan") as [p|] eqn:Hp1; cbn [snd].
    + unfold Subscription_objects_get in Hget.
      destruct (church user) as [c0|] eqn:Hc; [|discriminate].
      destruct (subscriptions db !! c0) eqn:Hs; [|discriminate].
      injection Hget as -> ->.
      unfold verify_payment, Subscription_objects_get. rewrite Hc. cbn.
      rewrite lookup_insert_eq, <- Hp. cbn.
      unfold set_subscriptions. cbn. by rewrite insert_insert_eq.
    + unfold verify_payment. by rewrite Hget, <- Hp.
  - cbn [snd]. unfold verify_payment. by rewrite Hget.
Qed.

Lemma verify_payment_idempotent_witness :
  snd (verify_payment
         (snd (verify_payment on_trial 100 superintendent1
                 {[ "plan" := "monthly"; "transaction_id" := "MTN_1" ]}))
         100 superintendent1
         {[ "plan" := "monthly"; "transaction_id" := "MTN_2" ]})
  = snd (verify_payment on_trial 100 superintendent1
           {[ "plan" := "monthly"; "transaction_id" := "MTN_1" ]}).
Proof.
  apply verify_payment_idempotent. reflexivity.
Defined.

(** X12. [initiate_payment] answers 200 exactly for the plans 'monthly',
    'annual' and 'quarterly' and 400 'Invalid plan type' for every other
    or missing plan; it needs no subscription and never writes.  The
    amount quoted is 50 for 'monthly' and 150 for both 'quarterly' and
    'annual' (the 500 of the price table is keyed 'yearly', a plan the
    view rejects). *)
Theorem initiate_payment_outcomes db today now_ts user data :
  snd (initiate_payment db today now_ts user data) = db /\
  (forall p,
     data !! "plan" = Some p ->
     p ∈ ["monthly"; "annual"; "quarterly"] ->
     fst (initiate_payment db today now_ts user data)
     = Return {| body := PaymentInitiated true ("MTN_" +:+ pretty now_ts) p
                           (if String.eqb p "monthly" then 50 else 150) "GHS"
                           "Payment initiated successfully. Please check your phone to complete payment.";
                 status_code := 200 |}) /\
  ((forall p, data !! "plan" = Some p -> p ∉ ["monthly"; "annual"; "quarterly"]) ->
   fst (initiate_payment db today now_ts user data)
   = Return {| body := ErrorBody "Invalid plan type"; status_code := 400 |}).
Proof.
  unfold initiate_payment. split; [|split].
  - destruct (data !! "plan") as [p|]; [|done].
    by destruct (negb (str_in p ["monthly"; "annual"; "quarterly"])).
  - intros p Hp Hin. rewrite Hp.
    apply list_elem_of_In in Hin. cbn in Hin.
    destruct Hin as [<-|[<-|[<-|[]]]]; reflexivity.
  - intros Hout. destruct (data !! "plan") as [p|]; [|done].
    by rewrite (str_in_not_elem_of _ _ (Hout p eq_refl)).
Qed.

Lemma initiate_payment_outcomes_witness :
  fst (initiate_payment new_church 100 1700000000 superintendent1 {[ "plan" := "annual" ]})
  = Return {| body := PaymentInitiated true "MTN_1700000000" "annual" 150 "GHS"
                        "Payment initiated successfully. Please check your phone to complete payment.";
              status_code := 200 |}
  /\
  fst (initiate_payment new_church 100 1700000000 superintendent1 {[ "plan" := "yearly" ]})
  = Return {| body := ErrorBody "Invalid plan type"; status_code := 400 |}.
Proof.
  split.
  - apply (proj1 (proj2 (initiate_payment_outcomes new_church 100 1700000000
                           superintendent1 {[ "plan" := "annual" ]})) "annual").
    + reflexivity.
    + apply list_elem_of_In. cbn. tauto.
  - apply (proj2 (proj2 (initiate_payment_outcomes new_church 100 1700000000
                           superintendent1 {[ "plan" := "yearly" ]}))).
    intros p Hp. rewrite lookup_singleton_eq in Hp. injection Hp as <-.
    intros Hin. apply list_elem_of_In in Hin. cbn in Hin.
    destruct Hin as [H|[H|[H|[]]]]; discriminate H.
Defined.



(** X14. [create_subscription] never answers 201 and never writes.  Whenever
    it returns a response, the response is the 400 of a church that
    already has a subscription; for a user without church it raises
    [AttributeError]. *)
Theorem create_subscription_outcomes db today user :
  snd (create_subscription db today user) = db /\
  (forall r,
     fst (create_subscription db today user) = Return r ->
     status_code r = 400 /\
     exists c, church user = Some c /\ is_Some (subscriptions db !! c)) /\
  (church user = None ->
   fst (create_subscription db today user) = Raise AttributeError).
Proof.
  unfold create_subscription, Subscription_objects_get.
  destruct (church user) as [c|]; [|by split; [|split]].
  destruct (subscriptions db !! c) as [s|] eqn:Hs.
  - split; [done|]. split; [|done].
    intros r Hr. injection Hr as <-. split; [done|]. by exists c.
  - split; [done|]. split; [|done]. intros r Hr. discriminate Hr.
Qed.

End LifecycleFacts.

(** ** The endpoints and the gate together *)

Module ApiFacts.
Import Models Serializers Views Middleware GateProperties GateFacts.

(** What a call leaves of the tables: the users, the set of churches that
    have a subscription, and for each subscription either the row as it
    was or a row with status 'active'. *)
Definition subscriptions_kept (db db' : DB) : Prop :=
  users db' = users db /\
  dom (subscriptions db') = dom (subscriptions db) /\
  forall c s', subscriptions db' !! c = Some s' ->
               subscriptions db !! c = Some s' \/ status s' = "active".

Lemma subscriptions_kept_refl db : subscriptions_kept db db.
Proof. split; [done | split; [done | by left]]. Qed.

Lemma create_subscription_writes_nothing db today user :
  snd (create_subscription db today user) = db.
Proof.
  unfold create_subscription, Subscription_objects_get.
  destruct (church user) as [c|]; [|done].
  by destruct (subscriptions db !! c).
Qed.

Lemma initiate_payment_writes_nothing db today now_ts user data :
  snd (initiate_payment db today now_ts user data) = db.
Proof.
  unfold initiate_payment. destruct (data !! "plan") as [p|]; [|done].
  by destruct (negb (str_in p ["monthly"; "annual"; "quarterly"])).
Qed.

(** The row [verify_payment] stores for the church of a paying user. *)
Lemma verify_payment_row db today user c s data p :
  church user = Some c ->
  subscriptions db !! c = Some s ->
  data !! "plan" = Some p ->
  exists d,
    30 <= d <= 365 /\
    snd (verify_payment db today user data)
    = set_subscriptions db
        (<[c := {| plan := p; status := "active";
                   trial_end_date := trial_end_date s;
                   current_period_end := today + d;
                   grace_period_end := grace_period_end s |}]> (subscriptions db)).
Proof.
  intros Hc Hs Hp. unfold verify_payment, Subscription_objects_get.
  rewrite Hc, Hs, Hp. cbn.
  destruct (bool_decide (Some p = Some "monthly")); [exists 30; split; [lia|done]|].
  destruct (bool_decide (Some p = Some "quarterly")); [exists 90; split; [lia|done]|].
  exists 365. split; [lia|done].
Qed.

(** X15. No subscription endpoint adds or removes a subscription row, touches
    the users, or writes a status other than 'active': through the API a
    church without a subscription never gets one, and a subscription never
    becomes past due, canceled or unpaid. *)
Theorem endpoints_keep_rows db today now_ts user data :
  subscriptions_kept db (snd (subscription_status db today user)) /\
  subscriptions_kept db (snd (create_subscription db today user)) /\
  subscriptions_kept db (snd (initiate_payment db today now_ts user data)) /\
  subscriptions_kept db (snd (verify_payment db today user data)).
Proof.
  split; [|split; [|split]].
  - unfold subscription_status.
    destruct (Subscription_objects_get db (church user)) as [[c s]|];
      apply subscriptions_kept_refl.
  - rewrite create_subscription_writes_nothing. apply subscriptions_kept_refl.
  - rewrite initiate_payment_writes_nothing. apply subscriptions_kept_refl.
  - destruct (church user) as [c|] eqn:Hc.
    2:{ unfold verify_payment, Subscription_objects_get. rewrite Hc.
        apply subscriptions_kept_refl. }
    destruct (subscriptions db !! c) as [s|] eqn:Hs.
    2:{ unfold verify_payment, Subscription_objects_get. rewrite Hc, Hs.
        apply subscriptions_kept_refl. }
    destruct (data !! "plan") as [p|] eqn:Hp.
    2:{ unfold verify_payment, Subscription_objects_get. rewrite Hc, Hs, Hp.
        apply subscriptions_kept_refl. }
    destruct (verify_payment_row db today user c s data p Hc Hs Hp)
      as (d & _ & ->).
    split; [done|]. split.
    + cbn. rewrite dom_insert_L.
      apply subseteq_union_1_L, singleton_subseteq_l, elem_of_dom. eauto.
    + intros c' s'. cbn. rewrite lookup_insert.
      case_decide; [|by left]. intros Heq. injection Heq as <-. by right.
Qed.

(** X16. What the status endpoint answers tells a client whether its writes
    will pass.  For a logged-in user with a church, a write outside the
    skipped prefixes passes the gate exactly when [subscription_status]
    answers 404 (no subscription) or answers a subscription whose
    [is_active] field is true. *)
Theorem status_endpoint_predicts_gate db today request u c :
  not_bypassed (path request) ->
  method request <> "GET" ->
  user request = Some (Authenticated u) ->
  church u = Some c ->
  (process_view db today request = Return None <->
   exists r, fst (subscription_status db today u) = Return r /\
             (Views.status_code r = 404 \/
              exists d, Views.body r = SubscriptionBody d /\
                        data_is_active d = true)).
Proof.
  intros Hpath Hget Hu Hc.
  unfold subscription_status, Subscription_objects_get. rewrite Hc.
  destruct (subscriptions db !! c) as [s|] eqn:Hs; cbn [fst].
  - assert (gated_write db request s) as Hg.
    { split; [done|]. split; [done|]. by exists u, c. }
    rewrite (gate_on_tenant _ _ _ _ Hg), checks_pass_iff_is_active. split.
    + intros Hact. eexists. split; [reflexivity|]. right.
      eexists. split; [reflexivity|]. exact Hact.
    + intros (r & Hr & [H404 | (d & Hd & Hact)]); injection Hr as <-.
      * discriminate H404.
      * cbn in Hd. injection Hd as <-. exact Hact.
  - split.
    + intros _. eexists. split; [reflexivity|]. by left.
    + intros _. destruct Hpath as (H1 & H2 & H3). unfold process_view.
      rewrite (startswith_not_under _ _ H1), (startswith_not_under _ _ H2),
        (startswith_not_under _ _ H3), (eqb_neq_false _ _ Hget), Hu, Hc, Hs.
      reflexivity.
Qed.

Lemma status_endpoint_predicts_gate_witness :
  process_view (db_with (sub "active" 99)) 100 post_classes = Return None <->
  exists r, fst (subscription_status (db_with (sub "active" 99)) 100 teacher1)
            = Return r /\
            (Views.status_code r = 404 \/
             exists d, Views.body r = SubscriptionBody d /\
                       data_is_active d = true).
Proof.
  apply (status_endpoint_predicts_gate _ 100 post_classes teacher1 1).
  - by apply not_bypassed_dec.
  - discriminate.
  - reflexivity.
  - reflexivity.
Defined.

(** X17. What a verified payment does to the gate.  Whatever the stored
    subscription was (canceled, unpaid, past due, expired), in the
    database that [verify_payment] leaves for a user of the church, with
    any plan that fits the column, the writes of every logged-in user of
    that church pass the
    gate on each day up to thirty days after the payment and are denied as
    expired on each day more than 365 days after it. *)
Theorem payment_reopens_gate db today user c s data p request u day :
  church user = Some c ->
  subscriptions db !! c = Some s ->
  data !! "plan" = Some p ->
  (String.length p <= 20)%nat ->
  not_bypassed (path request) ->
  method request <> "GET" ->
  Middleware.user request = Some (Authenticated u) ->
  church u = Some c ->
  (day <= today + 30 ->
   process_view (snd (verify_payment db today user data)) day request
   = Return None) /\
  (today + 365 < day ->
   denies (process_view (snd (verify_payment db today user data)) day request)
     "SUBSCRIPTION_EXPIRED").
Proof.
  intros Hc Hs Hp _ Hpath Hget Hu Hcu.
  destruct (verify_payment_row db today user c s data p Hc Hs Hp)
    as (d & Hd & ->).
  set (row := {| plan := p; status := "active";
                 trial_end_date := trial_end_date s;
                 current_period_end := today + d;
                 grace_period_end := grace_period_end s |}).
  assert (gated_write (set_subscriptions db (<[c := row]> (subscriptions db)))
            request row) as Hg.
  { split; [done|]. split; [done|]. exists u, c.
    split; [done|]. split; [done|]. cbn. apply lookup_insert_eq. }
  rewrite (gate_on_tenant _ _ _ _ Hg). cbn.
  split; intros Hday.
  - destruct (today + d <? day) eqn:E; [|done]. apply Z.ltb_lt in E. lia.
  - destruct (today + d <? day) eqn:E; [by exists EXPIRED|].
    apply Z.ltb_ge in E. lia.
Qed.

(** A canceled subscription, a quarterly payment on day 100, and a
    teacher's write on day 130. *)
Lemma payment_reopens_gate_witness :
  process_view
    (snd (verify_payment (db_with (sub "canceled" 50)) 100 teacher1
            {[ "plan" := "quarterly" ]}))
    130 post_classes
  = Return None.
Proof.
  refine (proj1 (payment_reopens_gate (db_with (sub "canceled" 50)) 100 teacher1 1
                   (sub "canceled" 50) {[ "plan" := "quarterly" ]} "quarterly"
                   post_classes teacher1 130 _ _ _ _ _ _ _ _) _).
  - reflexivity.
  - apply lookup_singleton_eq.
  - reflexivity.
  - cbn. lia.
  - by apply not_bypassed_dec.
  - discriminate.
  - reflexivity.
  - reflexivity.
  - lia.
Defined.

(** The routes of [urls.py] that create a subscription and take a
    payment, under the 'api/' prefix of the project's [urls.py]. *)
Definition subscription_write_paths : list string :=
  ["/api/subscription/create/";
   "/api/subscription/initiate-payment/";
   "/api/subscription/verify-payment/"].

(** X18. The payment endpoints stand behind the gate themselves.  A POST to
    the create, initiate-payment or verify-payment route by a logged-in
    user whose church's subscription is not [is_active] (past due,
    canceled, unpaid, or with a lapsed period) is answered 402 by the gate,
    so the view does not run. *)
Theorem payment_endpoints_are_gated db today request u c s :
  path request ∈ subscription_write_paths ->
  method request = "POST" ->
  user request = Some (Authenticated u) ->
  church u = Some c ->
  subscriptions db !! c = Some s ->
  get_is_active today s = false ->
  exists code, denies (process_view db today request) code.
Proof.
  intros Hpath Hm Hu Hc Hs Hact.
  assert (gated_write db request s) as Hg.
  { split.
    - apply list_elem_of_In in Hpath. cbn in Hpath.
      destruct Hpath as [<-|[<-|[<-|[]]]]; by apply not_bypassed_dec.
    - split; [rewrite Hm; discriminate|]. by exists u, c. }
  pose proof (checks_pass_iff_is_active today s) as Hiff.
  rewrite (gate_on_tenant _ _ _ _ Hg).
  destruct (str_in (status s) ["canceled"; "unpaid"]);
    [by exists "SUBSCRIPTION_TERMINATED", TERMINATED|].
  destruct (String.eqb (status s) "past_due");
    [by exists "PAYMENT_PAST_DUE", PAST_DUE|].
  destruct (current_period_end s <? today);
    [by exists "SUBSCRIPTION_EXPIRED", EXPIRED|].
  destruct (str_in (status s) ["active"; "trialing"]);
    [|by exists "SUBSCRIPTION_ACCESS_DENIED", ACCESS_DENIED].
  rewrite (proj1 Hiff eq_refl) in Hact. discriminate Hact.
Qed.

(** A past-due church posting to verify-payment. *)
Lemma payment_endpoints_are_gated_witness :
  exists code,
    denies
      (process_view (db_with (sub "past_due" 500)) 100
         {| path := "/api/subscription/verify-payment/"; method := "POST";
            user := Some (Authenticated teacher1) |})
      code.
Proof.
  apply (payment_endpoints_are_gated _ 100 _ teacher1 1 (sub "past_due" 500)).
  - apply list_elem_of_In. cbn. tauto.
  - reflexivity.
  - reflexivity.
  - reflexivity.
  - apply lookup_singleton_eq.
  - reflexivity.
Defined.

End ApiFacts.

(** ** Deleting users, beyond the refusal *)

Module UserFacts.
Import Models UserProperties.

(** The church [c] has an active superintendent among the stored users. *)
Definition has_active_superintendent (db : DB) (c : option church_id) : Prop :=
  exists u, u ∈ users db /\
            church u = c /\
            role u = "superintendent" /\
            is_active u = true.

(** Rows with the same primary key are the same row. *)
Lemma same_id_same_row (us : list CustomUser) (u v : CustomUser) :
  NoDup (map id us) -> u ∈ us -> v ∈ us -> id u = id v -> u = v.
Proof.
  induction us as [|w us IH]; intros Hnd Hu Hv Hid.
  - by apply elem_of_nil in Hu.
  - cbn in Hnd. apply NoDup_cons in Hnd as [Hw Hnd].
    apply elem_of_cons in Hu as [->|Hu]; apply elem_of_cons in Hv as [->|Hv].
    + done.
    + exfalso. apply Hw. rewrite Hid. apply list_elem_of_fmap. by exists v.
    + exfalso. apply Hw. rewrite <- Hid. apply list_elem_of_fmap. by exists u.
    + by apply IH.
Qed.

(** X19. Only superintendents are guarded.  A user with any other role
    (teacher, member, system administrator, or a role outside the
    choices) is always deleted, also when it is the only user of its
    church: the rows with its id go, every other row and the
    subscriptions stay. *)
Theorem delete_unguarded_roles db self :
  role self <> "superintendent" ->
  exists db',
    CustomUser_delete db self = (Return tt, db') /\
    subscriptions db' = subscriptions db /\
    forall u, u ∈ users db' <-> u ∈ users db /\ id u <> id self.
Proof.
  intros Hrole. unfold CustomUser_delete.
  rewrite (eqb_neq_false _ _ Hrole).
  exists (super_delete db self). split; [done|]. split; [done|].
  intros u. apply elem_of_exclude_id.
Qed.

Definition teacher9 : CustomUser :=
  {| id := 9; church := Some 2; role := "teacher"; is_active := true;
     is_officer := false |}.

Lemma delete_unguarded_roles_witness :
  exists db',
    CustomUser_delete {| users := [teacher9]; subscriptions := ∅ |} teacher9
    = (Return tt, db') /\
    subscriptions db' = ∅ /\
    forall u, u ∈ users db' <-> u ∈ [teacher9] /\ id u <> 9.
Proof.
  apply (delete_unguarded_roles {| users := [teacher9]; subscriptions := ∅ |} teacher9).
  discriminate.
Defined.

(** X20. What the guard is for.  With unique primary keys, deleting a stored
    user, of any role and whether [delete] succeeds or raises, never takes
    a church's last active superintendent away: a church that had an
    active superintendent before the call has one after it. *)
Theorem delete_keeps_a_superintendent db self c :
  NoDup (map id (users db)) ->
  self ∈ users db ->
  has_active_superintendent db c ->
  has_active_superintendent (snd (CustomUser_delete db self)) c.
Proof.
  intros Hnd Hself (u & Hu & Hc & Hr & Ha).
  unfold CustomUser_delete.
  destruct (String.eqb (role self) "superintendent") eqn:Erole.
  - pose proof (other_superintendents_exists db self) as Hq.
    destruct (qs_exists _) eqn:E; cbn.
    + destruct (decide (id u = id self)) as [Hid|Hid].
      * assert (u = self) as -> by (by apply (same_id_same_row (users db))).
        destruct (proj1 Hq eq_refl) as (v & Hv & Hvid & Hvc & Hvr & Hva).
        exists v. split; [by apply elem_of_exclude_id|]. by rewrite Hvc.
      * exists u. split; [by apply elem_of_exclude_id|done].
    + by exists u.
  - cbn. exists u. split; [|done]. apply elem_of_exclude_id. split; [done|].
    intros Hid.
    assert (u = self) as -> by (by apply (same_id_same_row (users db))).
    apply String.eqb_neq in Erole. contradiction.
Qed.

(** Church 1 keeps a superintendent when user 1 is deleted. *)
Lemma delete_keeps_a_superintendent_witness :
  has_active_superintendent
    (snd (CustomUser_delete three_superintendents (sup 1 1 true))) (Some 1).
Proof.
  apply delete_keeps_a_superintendent.
  - apply (bool_decide_unpack _). vm_compute. exact I.
  - apply list_elem_of_here.
  - exists (sup 1 1 true). split; [apply list_elem_of_here | done].
Defined.

End UserFacts.

(** ** The default password *)

Module PasswordFacts.
Import Models.


(** [str.isdigit] on ASCII characters: '0' to '9'. *)
Definition ascii_isdigit (a : Ascii.ascii) : bool :=
  ((48 <=? Ascii.N_of_ascii a) && (Ascii.N_of_ascii a <=? 57))%N.












End PasswordFacts.

(** ** Saving users *)

Module SaveFacts.
Import UserSave.

(** What the model assumes of Django's [save]: on success the instance
    is no longer [adding] and keeps the fields [CustomUser.save] reads. *)
Definition super_save_keeps {Store : Type}
    (super_save : Store -> UserInstance -> option (list string)
                  -> result UserInstance * Store) : Prop :=
  forall st i uf i' st',
    super_save st i uf = (Return i', st') ->
    adding i' = false /\
    role i' = role i /\
    church i' = church i /\
    phone i' = phone i /\
    password i' = password i /\
    is_superuser i' = is_superuser i.

Lemma listed_role_truthy (r : string) (l : list string) :
  r ∈ l -> "" ∉ l -> str_truthy r = true.
Proof. intros Hin Hne. destruct r; [contradiction | done]. Qed.

(** A role of the two lists of [save] is not renamed by the superuser
    rule, which applies to the empty role only. *)
Lemma keeps_listed_role (self : UserInstance) :
  role self ∈ ["superintendent"; "teacher"; "member"] ->
  (if is_superuser self && negb (str_truthy (role self))
   then with_role self "system_admin" else self) = self.
Proof.
  intros Hin. rewrite (listed_role_truthy _ _ Hin).
  - by rewrite andb_false_r.
  - intros H. apply list_elem_of_In in H. cbn in H.
    destruct H as [H|[H|[H|[]]]]; discriminate H.
Qed.

Lemma teacher_member_listed (r : string) :
  r ∈ ["teacher"; "member"] ->
  r ∈ ["superintendent"; "teacher"; "member"] /\
  str_in r ["superintendent"; "teacher"; "member"] = true /\
  str_in r ["teacher"; "member"] = true.
Proof.
  intros H. apply list_elem_of_In in H. cbn in H.
  destruct H as [<-|[<-|[]]]; (split; [apply list_elem_of_In; cbn; tauto | done]).
Qed.

Section Validation.
Context {Store : Type}.
Variable super_save :
  Store -> UserInstance -> option (list string) -> result UserInstance * Store.
Variable make_password : string -> string.
Variable isdigit : Ascii.ascii -> bool.

(** X23. [save] validates before it writes.  A superintendent, teacher or
    member without church is refused with '<Role> must belong to a
    church.'; a teacher or member with a church but without phone ([None]
    or empty) is refused with '<Role> must have a phone number.'.  In both
    cases Django's [save] is not reached and the database state is the one
    given. *)
Theorem save_requires_church_and_phone fuel st self uf :
  (role self ∈ ["superintendent"; "teacher"; "member"] ->
   church self = None ->
   CustomUser_save Store super_save make_password isdigit (S fuel) st self uf
   = Some (Raise (ValidationError
                    (get_role_display self +:+ " must belong to a church.")), st)) /\
  (role self ∈ ["teacher"; "member"] ->
   is_Some (church self) ->
   opt_truthy (phone self) = false ->
   CustomUser_save Store super_save make_password isdigit (S fuel) st self uf
   = Some (Raise (ValidationError
                    (get_role_display self +:+ " must have a phone number.")), st)).
Proof.
  split.
  - intros Hrole Hchurch. cbn [CustomUser_save].
    rewrite (keeps_listed_role _ Hrole).
    apply str_in_elem_of in Hrole. rewrite Hrole, Hchurch.
    rewrite bool_decide_eq_false_2; [done|]. by intros [x Hx].
  - intros Hrole Hchurch Hphone. cbn [CustomUser_save].
    destruct (teacher_member_listed _ Hrole) as (Hin & H3 & H2).
    rewrite (keeps_listed_role _ Hin), H3, H2, Hphone.
    by rewrite bool_decide_eq_true_2.
Qed.

(** X24. A teacher or member that is new (or has no password yet) always ends
    with the default password.  Provided Django's [save] behaves as
    [super_save_keeps] says and the hasher never returns the empty string,
    saving such a user with a church and a phone takes two calls of
    [save]: it ends, and unless Django's [save] raises, the instance it
    leaves has the hash of [get_default_password] as its password,
    whatever password it was given. *)
Theorem new_teacher_member_gets_default_password fuel st self uf p :
  super_save_keeps super_save ->
  (forall raw, make_password raw <> "") ->
  role self ∈ ["teacher"; "member"] ->
  is_Some (church self) ->
  phone self = Some p ->
  p <> "" ->
  adding self = true \/ password self = "" ->
  (2 <= fuel)%nat ->
  match CustomUser_save Store super_save make_password isdigit fuel st self uf with
  | Some (Return self', _) =>
      password self' = make_password (Models.get_default_password isdigit (Some p)) /\
      adding self' = false
  | Some (Raise _, _) => True
  | None => False
  end.
Proof.
  intros Hkeeps Hhash Hrole Hchurch Hphone Hp Hnew Hfuel.
  destruct fuel as [|[|fuel]]; [lia | lia |].
  destruct (teacher_member_listed _ Hrole) as (Hin & H3 & H2).
  assert (opt_truthy (Some p) = true) as Htruthy by (by destruct p).
  assert (adding self || negb (str_truthy (password self)) = true) as Hnew'.
  { destruct Hnew as [-> | ->]; [done | by rewrite orb_true_r]. }
  cbn [CustomUser_save].
  rewrite (keeps_listed_role _ Hin), H3, H2, Hphone, Htruthy, Hnew'.
  rewrite bool_decide_eq_true_2 by done. cbn [negb andb].
  destruct (super_save st self uf) as [[self1|e] st1] eqn:E1; [|done].
  destruct (Hkeeps _ _ _ _ _ E1) as (Ha1 & Hr1 & Hc1 & Hp1 & _ & _).
  set (self1' := with_password self1 _).
  assert (role self1' ∈ ["superintendent"; "teacher"; "member"]) as Hin1
    by (cbn; by rewrite Hr1).
  rewrite (keeps_listed_role _ Hin1). cbn [role church phone adding password self1' with_password].
  rewrite Hr1, H3, H2, Hc1, Hp1, Hphone, Htruthy, Ha1.
  rewrite bool_decide_eq_true_2 by done. cbn [negb andb orb].
  assert (str_truthy (make_password (Models.get_default_password isdigit (Some p)))
          = true) as Hh.
  { specialize (Hhash (Models.get_default_password isdigit (Some p))).
    by destruct (make_password _). }
  rewrite Hh. cbn [negb].
  destruct (super_save st1 _ _) as [[self2|e] st2] eqn:E2; [|done].
  destruct (Hkeeps _ _ _ _ _ E2) as (Ha2 & _ & _ & _ & Hpw2 & _).
  split; [|done]. rewrite Hpw2. unfold self1'. cbn. by rewrite Hp1, Hphone.
Qed.

End Validation.

(** A toy database for the examples: the list of the saved rows, where
    a first save takes the next key and a later save replaces the row of
    its key; and a hasher that tags the raw password. *)
Definition toy_save (st : list UserInstance) (i : UserInstance)
    (uf : option (list string)) : result UserInstance * list UserInstance :=
  let k := match pk i with Some k => k | None => Z.of_nat (length st) + 1 end in
  let i' := {| pk := Some k; church := church i;
               role := role i; phone := phone i; password := password i;
               is_superuser := is_superuser i; adding := false |} in
  (Return i', i' :: List.filter (fun r => negb (bool_decide (pk r = Some k))) st).

Definition toy_hash (raw : string) : string := "hash$" +:+ raw.

Definition new_member (c : option Z) (ph : option string) : UserInstance :=
  {| pk := None; church := c; role := "member"; phone := ph;
     password := "chosen by the user"; is_superuser := false; adding := true |}.

Lemma save_requires_church_and_phone_witness :
  CustomUser_save _ toy_save toy_hash PasswordFacts.ascii_isdigit 1 []
    (new_member None (Some "0241234567")) None
  = Some (Raise (ValidationError "Member must belong to a church."), []) /\
  CustomUser_save _ toy_save toy_hash PasswordFacts.ascii_isdigit 1 []
    (new_member (Some 1) (Some "")) None
  = Some (Raise (ValidationError "Member must have a phone number."), []).
Proof.
  split.
  - apply (proj1 (save_requires_church_and_phone toy_save toy_hash
                    PasswordFacts.ascii_isdigit 0 [] (new_member None (Some "0241234567")) None)).
    + apply list_elem_of_In. cbn. tauto.
    + reflexivity.
  - apply (proj2 (save_requires_church_and_phone toy_save toy_hash
                    PasswordFacts.ascii_isdigit 0 [] (new_member (Some 1) (Some "")) None)).
    + apply list_elem_of_In. cbn. tauto.
    + by exists 1.
    + reflexivity.
Defined.

Lemma toy_save_keeps : super_save_keeps toy_save.
Proof.
  intros st i uf i' st' H. unfold toy_save in H. injection H as <- _. done.
Qed.

(** A member created with a password of its own and the phone
    024 123 4567 is stored with the hash of '234567'. *)
Lemma new_teacher_member_gets_default_password_witness :
  match CustomUser_save _ toy_save toy_hash PasswordFacts.ascii_isdigit 2 []
          (new_member (Some 1) (Some "024 123 4567")) None with
  | Some (Return self', _) =>
      password self'
      = toy_hash (Models.get_default_password PasswordFacts.ascii_isdigit
                    (Some "024 123 4567")) /\
      adding self' = false
  | Some (Raise _, _) => True
  | None => False
  end.
Proof.
  apply (new_teacher_member_gets_default_password toy_save toy_hash
           PasswordFacts.ascii_isdigit 2 [] (new_member (Some 1) (Some "024 123 4567"))
           None "024 123 4567").
  - apply toy_save_keeps.
  - discriminate.
  - apply list_elem_of_In. cbn. tauto.
  - by exists 1.
  - reflexivity.
  - discriminate.
  - by left.
  - lia.
Defined.

Example new_member_password :
  CustomUser_save _ toy_save toy_hash PasswordFacts.ascii_isdigit 2 []
    (new_member (Some 1) (Some "024 123 4567")) None
  = Some (Return {| pk := Some 1; church := Some 1; role := "member";
                    phone := Some "024 123 4567"; password := "hash$234567";
                    is_superuser := false; adding := false |},
          [ {| pk := Some 1; church := Some 1; role := "member";
               phone := Some "024 123 4567"; password := "hash$234567";
               is_superuser := false; adding := false |} ]).
Proof. reflexivity. Qed.

End SaveFacts.
